(** * qorpo: a price-tracking web service

    Shallow embedding of [main.py] and [config.py]: three FastAPI handlers
    ([price], [price_history], [delete_table]) over an exchange client
    (ccxt) and a PostgreSQL store reached through psycopg2.

    Layout:
    - [PyStr]      Python [str] values and the string methods the handlers use;
    - [Py]         exceptions and the state-and-exception monad;
    - [PyTime]     [datetime.fromtimestamp] and [strftime];
    - [PyDict]     insertion-ordered dictionaries;
    - [Pg]         the store as psycopg2 shows it: catalog, transaction, faults;
    - the functions of [config.py] and [main.py], in source order;
    - the properties.

    The handlers are [async] functions without an [await]: a request runs
    to its end before the next one starts, so a request is a function from
    the world before it to its outcome and the world after it. *)

From Stdlib Require Import ZArith NArith List String Ascii Lia Bool QArith_base Qround.
From stdpp Require Import base option list gmap.

Local Open Scope Z_scope.

(* ===================================================================== *)
(** ** Python strings *)
(* ===================================================================== *)

Module PyStr.

(** A Python [str] is a sequence of Unicode code points. *)
Definition codepoint := N.
Definition str := list codepoint.

(** String literals of the source are ASCII: one code point per character. *)
Fixpoint lit (s : string) : str :=
  match s with
  | EmptyString => []
  | String a s' => N_of_ascii a :: lit s'
  end.

(** A single-character literal, as in [replace("/", "_")]. *)
Definition chr (a : ascii) : codepoint := N_of_ascii a.

(** [str.upper()] on one code point (full Unicode case mapping, so the
    result can be longer than one code point).  The table is exact on the
    blocks Basic Latin and Latin-1 Supplement (U+0000..U+00FF); beyond
    them a code point is left as it is.  The properties below either hold
    whatever the case mapping is, or are stated for ASCII input. *)
Definition upper_cp (c : codepoint) : str :=
  if ((0x61 <=? c) && (c <=? 0x7A))%N then [(c - 0x20)%N]        (* a..z *)
  else if (c =? 0xB5)%N then [0x39C%N]                             (* MICRO SIGN *)
  else if (c =? 0xDF)%N then [0x53%N; 0x53%N]                      (* sharp s -> SS *)
  else if ((0xE0 <=? c) && (c <=? 0xFE) && negb (c =? 0xF7))%N
       then [(c - 0x20)%N]                                         (* a-grave..thorn *)
  else if (c =? 0xFF)%N then [0x178%N]                             (* y-diaeresis *)
  else [c].

(** [str.lower()] on one code point: exact on U+0000..U+00FF and on the
    two images of [upper_cp] that leave that range. *)
Definition lower_cp (c : codepoint) : str :=
  if ((0x41 <=? c) && (c <=? 0x5A))%N then [(c + 0x20)%N]        (* A..Z *)
  else if ((0xC0 <=? c) && (c <=? 0xDE) && negb (c =? 0xD7))%N
       then [(c + 0x20)%N]                                         (* A-grave..THORN *)
  else if (c =? 0x178)%N then [0xFF%N]
  else if (c =? 0x39C)%N then [0x3BC%N]
  else [c].

Definition upper (s : str) : str := flat_map upper_cp s.
Definition lower (s : str) : str := flat_map lower_cp s.

(** [s.replace(old, new)] for one-character [old] and [new]. *)
Definition replace (old new : codepoint) (s : str) : str :=
  map (fun c => if (c =? old)%N then new else c) s.

Definition is_ascii (s : str) : bool := forallb (fun c => (c <? 128)%N) s.

(** Decimal digits, zero padded to a fixed width. *)
Definition digit (n : Z) : codepoint := (48 + Z.to_N (n mod 10))%N.
Definition pad2 (n : Z) : str := [digit (n / 10); digit n].
Definition pad4 (n : Z) : str :=
  [digit (n / 1000); digit (n / 100); digit (n / 10); digit n].

(** The value of a digit character, if it is one. *)
Definition digit_val (c : codepoint) : option Z :=
  if ((48 <=? c) && (c <=? 57))%N then Some (Z.of_N c - 48) else None.

End PyStr.
Import PyStr.


(* ===================================================================== *)
(** ** Exceptions and control flow *)
(* ===================================================================== *)

Module Py.

(** A Python [float] is modelled by the rational it denotes (finite values,
    exact arithmetic). *)
Definition float := Q.

Inductive builtin_class :=
  Exception | TypeError | ValueError | IndexError | AttributeError | UnboundLocalError.

(** The exception classes the service meets.  [HTTPException] is
    fastapi's, [BaseError] stands for [ccxt.BaseError] and its subclasses,
    [Psycopg2Error] for [psycopg2.Error] and its subclasses.  All of them
    derive from [Exception]; only [BaseError] derives from
    [ccxt.BaseError]. *)
Inductive exn :=
| HTTPException (status_code : Z) (detail : str)
| BaseError (msg : str)
| Psycopg2Error (msg : str)
| Builtin (cls : builtin_class) (msg : str).

(** [except ccxt.BaseError] *)
Definition isinstance_BaseError (e : exn) : bool :=
  match e with BaseError _ => true | _ => false end.

(** [except (Exception, psycopg2.Error)] *)
Definition isinstance_Exception (e : exn) : bool :=
  match e with
  | HTTPException _ _ | BaseError _ | Psycopg2Error _ | Builtin _ _ => true
  end.

(** [str(e)] for the exceptions it is applied to, which carry one message. *)
Definition str_of (e : exn) : str :=
  match e with
  | HTTPException _ detail => detail
  | BaseError msg | Psycopg2Error msg | Builtin _ msg => msg
  end.

Inductive result (A : Type) :=
| Ok (a : A)
| Raise (e : exn).
Arguments Ok {A} a.
Arguments Raise {A} e.

Section Monad.
Context {S : Type}.

(** A statement runs in a state and either yields a value or raises; the
    state it leaves is kept in both cases. *)
Definition M (A : Type) := S -> result A * S.

Definition ret {A} (a : A) : M A := fun s => (Ok a, s).
Definition raise {A} (e : exn) : M A := fun s => (Raise e, s).

Definition bind {A B} (m : M A) (k : A -> M B) : M B :=
  fun s => match m s with
           | (Ok a, s') => k a s'
           | (Raise e, s') => (Raise e, s')
           end.

Definition gets {A} (f : S -> A) : M A := fun s => (Ok (f s), s).
Definition modify (f : S -> S) : M unit := fun s => (Ok tt, f s).

(** [try: body except cls as e: handler e] *)
Definition try_except {A} (body : M A) (cls : exn -> bool) (handler : exn -> M A) : M A :=
  fun s => match body s with
           | (Ok a, s') => (Ok a, s')
           | (Raise e, s') => if cls e then handler e s' else (Raise e, s')
           end.

(** [try: body finally: fin]: [fin] runs on both exits; an exception of
    [fin] replaces the outcome of [body]. *)
Definition try_finally {A} (body : M A) (fin : M unit) : M A :=
  fun s => match body s with
           | (r, s') => match fin s' with
                        | (Ok _, s'') => (r, s'')
                        | (Raise e, s'') => (Raise e, s'')
                        end
           end.
End Monad.
Arguments M : clear implicits.

End Py.
Import Py.

Declare Scope py_scope.
Delimit Scope py_scope with py.
Notation "x <- c ;; k" := (bind c (fun x => k))
  (at level 100, c at next level, right associativity) : py_scope.
Notation "c ;; k" := (bind c (fun _ => k))
  (at level 100, right associativity) : py_scope.

(* ===================================================================== *)
(** ** Dates and times *)
(* ===================================================================== *)

Module PyTime.

(** A naive [datetime] (no [tzinfo]). *)
Record datetime := {
  year : Z; month : Z; day : Z;
  hour : Z; minute : Z; second : Z; microsecond : Z }.

Definition is_leap (y : Z) : bool :=
  (y mod 4 =? 0) && (negb (y mod 100 =? 0) || (y mod 400 =? 0)).

(** [_DAYS_IN_MONTH] and [_days_in_month] *)
Definition DAYS_IN_MONTH (m : Z) : Z :=
  match m with
  | 1 | 3 | 5 | 7 | 8 | 10 | 12 => 31
  | 4 | 6 | 9 | 11 => 30
  | 2 => 28
  | _ => 0
  end.

Definition days_in_month (y m : Z) : Z :=
  if (m =? 2) && is_leap y then 29 else DAYS_IN_MONTH m.

(** [_DAYS_BEFORE_MONTH] *)
Definition days_before_month (m : Z) : Z :=
  match m with
  | 1 => 0 | 2 => 31 | 3 => 59 | 4 => 90 | 5 => 120 | 6 => 151
  | 7 => 181 | 8 => 212 | 9 => 243 | 10 => 273 | 11 => 304 | 12 => 334
  | _ => 0
  end.

(** [_ord2ymd]: proleptic Gregorian ordinal (1 = 0001-01-01) to year,
    month, day, the way the [datetime] module computes it. *)
Definition ord2ymd (n : Z) : Z * Z * Z :=
  let n := n - 1 in
  let n400 := n / 146097 in
  let n := n mod 146097 in
  let n100 := n / 36524 in
  let n := n mod 36524 in
  let n4 := n / 1461 in
  let n := n mod 1461 in
  let n1 := n / 365 in
  let n := n mod 365 in
  let y := n400 * 400 + 1 + n100 * 100 + n4 * 4 + n1 in
  if (n1 =? 4) || (n100 =? 4) then (y - 1, 12, 31)
  else
    let leapyear := (n1 =? 3) && (negb (n4 =? 24) || (n100 =? 3)) in
    let m := Z.shiftr (n + 50) 5 in
    let preceding := days_before_month m + (if (2 <? m) && leapyear then 1 else 0) in
    if n <? preceding
    then
      let m' := m - 1 in
      let preceding' :=
        preceding - (DAYS_IN_MONTH m' + (if (m' =? 2) && leapyear then 1 else 0)) in
      (y, m', n - preceding' + 1)
    else (y, m, n - preceding + 1).

(** The field checks of the [datetime] constructor ([MINYEAR] = 1,
    [MAXYEAR] = 9999); a failed check is a [ValueError]. *)
Definition check_date_fields (y m d : Z) : bool :=
  (1 <=? y) && (y <=? 9999) && (1 <=? m) && (m <=? 12)
  && (1 <=? d) && (d <=? days_in_month y m).

Definition check_time_fields (hh mm ss us : Z) : bool :=
  (0 <=? hh) && (hh <=? 23) && (0 <=? mm) && (mm <=? 59)
  && (0 <=? ss) && (ss <=? 59) && (0 <=? us) && (us <=? 999999).

Definition check_fields (dt : datetime) : bool :=
  check_date_fields (year dt) (month dt) (day dt)
  && check_time_fields (hour dt) (minute dt) (second dt) (microsecond dt).

(** Rounding to the nearest integer, ties to even. *)
Definition round_half_even (q : Q) : Z :=
  let f := Qfloor q in
  match Qcompare (Qminus q (inject_Z f)) (1 # 2) with
  | Lt => f
  | Gt => f + 1
  | Eq => if Z.even f then f else f + 1
  end.

(** The calendar fields of an instant given in seconds since the epoch
    (1970-01-01 is ordinal 719163), with the microsecond [us] attached. *)
Definition broken_down (secs us : Z) : datetime :=
  let '(y, m, d) := ord2ymd (secs / 86400 + 719163) in
  let sod := secs mod 86400 in
  {| year := y; month := m; day := d;
     hour := sod / 3600; minute := sod mod 3600 / 60; second := sod mod 60;
     microsecond := us |}.

(** [datetime.fromtimestamp(ts)] without [tz]: [ts] is rounded to whole
    microseconds and broken down in the local time of the server, whose
    offset from UTC at a given instant is [utcoffset]; the result is naive.
    [None] stands for the error raised when the local year is outside
    1..9999. *)
Definition fromtimestamp (utcoffset : Z -> Z) (ts : float) : option datetime :=
  let total_us := round_half_even (Qmult ts (inject_Z 1000000)) in
  let t := total_us / 1000000 in
  let us := total_us mod 1000000 in
  let dt := broken_down (t + utcoffset t) us in
  if check_fields dt then Some dt else None.

(** [dt.strftime('%Y-%m-%d %H:%M:%S')]: every field in decimal, zero
    padded to its width, the year to four digits as documented (a C
    library that does not pad [%Y] prints a year below 1000 shorter); the
    microsecond is not printed. *)
Definition strftime (dt : datetime) : str :=
  pad4 (year dt) ++ [chr "-"] ++ pad2 (month dt) ++ [chr "-"] ++ pad2 (day dt)
  ++ [chr " "] ++ pad2 (hour dt) ++ [chr ":"] ++ pad2 (minute dt)
  ++ [chr ":"] ++ pad2 (second dt).

End PyTime.
Import PyTime.

(* ===================================================================== *)
(** ** Dictionaries *)
(* ===================================================================== *)

Module PyDict.

(** A [dict] keeps one entry per key, in the order of first insertion. *)
Definition dict (V : Type) := list (str * V).

(** [d[k] = v] *)
Fixpoint set {V} (k : str) (v : V) (d : dict V) : dict V :=
  match d with
  | [] => [(k, v)]
  | (k', v') :: d' =>
      if bool_decide (k' = k) then (k', v) :: d' else (k', v') :: set k v d'
  end.

(** [d.get(k)] *)
Fixpoint get {V} (k : str) (d : dict V) : option V :=
  match d with
  | [] => None
  | (k', v') :: d' => if bool_decide (k' = k) then Some v' else get k d'
  end.

Definition keys {V} (d : dict V) : list str := map fst d.

(** The number of entries of [d] under the key [k]. *)
Definition count {V} (k : str) (d : dict V) : nat :=
  length (List.filter (fun e => bool_decide (fst e = k)) d).

End PyDict.

(* ===================================================================== *)
(** ** The store, as psycopg2 shows it *)
(* ===================================================================== *)

Module Pg.

(** A row of a currency table, columns [date] and [value] (the serial [id]
    is never read by the service).  A table is the list of its rows in
    insertion order, which is also the order a [SELECT] without
    [ORDER BY] is taken to return them in. *)
Record row := { date : datetime; value : Q }.

(** A value of a result column, as psycopg2 hands it to Python. *)
Inductive cell :=
| CBool (b : bool)
| CTimestamp (t : datetime)
| CNumeric (v : Q).
Definition tuple := list cell.

(** The five statements the service sends, with the interpolated table
    name and the bound parameters.  The table name is an opaque key: how
    PostgreSQL reads an interpolated name that is not a plain identifier
    is not modelled; a statement it rejects is a fault of the plan below. *)
Inductive stmt :=
| SelectExists (table_name : str)
| CreateTable (table_name : str)
| InsertInto (table_name : str) (date : str) (value : float)
| SelectDateValue (table_name : str)
| DropTableIfExists (table_name : str).

(** An open connection: the tables as its transaction sees them, the
    result set of the last statement, and whether the transaction has
    failed. *)
Record session := {
  work : gmap str (list row);
  results : option (list tuple);
  aborted : bool }.

(** The server: the committed tables, the session of the one connection
    the service holds at a time, the fault plan and the statements
    received.  The fault plan decides, call by call, whether the next call
    that reaches the server ([psycopg2.connect], [cursor.execute],
    [connection.commit]) fails with the given message instead of taking
    effect; an exhausted plan stands for a server that answers. *)
Record server := {
  committed : gmap str (list row);
  open : option session;
  faults : list (option str);
  sent : list stmt }.

(** The connection object and the cursor object; the service holds one of
    each at a time, and their state is the session of the server. *)
Inductive connection := Connection.
Inductive cursor := Cursor.

Definition set_open (o : option session) (s : server) : server :=
  {| committed := committed s; open := o; faults := faults s; sent := sent s |}.
Definition set_committed (c : gmap str (list row)) (s : server) : server :=
  {| committed := c; open := open s; faults := faults s; sent := sent s |}.
Definition log_stmt (q : stmt) (s : server) : server :=
  {| committed := committed s; open := open s; faults := faults s; sent := sent s ++ [q] |}.

Definition next_fault (s : server) : option str * server :=
  match faults s with
  | [] => (None, s)
  | f :: fs =>
      (f, {| committed := committed s; open := open s; faults := fs; sent := sent s |})
  end.

Definition two_digits (a b : codepoint) : option Z :=
  match digit_val a, digit_val b with
  | Some x, Some y => Some (10 * x + y)
  | _, _ => None
  end.

(** The text of a [timestamp without time zone], in the one form the
    service writes: [YYYY-MM-DD HH:MM:SS] with a valid calendar date.
    (PostgreSQL reads more forms; none of them is sent.) *)
Definition timestamp_in (s : str) : option datetime :=
  match s with
  | [y1; y2; y3; y4; p1; m1; m2; p2; d1; d2; p3; h1; h2; p4; n1; n2; p5; c1; c2] =>
      if ((p1 =? chr "-") && (p2 =? chr "-") && (p3 =? chr " ")
          && (p4 =? chr ":") && (p5 =? chr ":"))%N
      then
        match two_digits y1 y2, two_digits y3 y4, two_digits m1 m2, two_digits d1 d2,
              two_digits h1 h2, two_digits n1 n2, two_digits c1 c2 with
        | Some ya, Some yb, Some mo, Some dd, Some hh, Some mi, Some ss =>
            let dt := {| year := 100 * ya + yb; month := mo; day := dd;
                         hour := hh; minute := mi; second := ss; microsecond := 0 |} in
            if check_fields dt then Some dt else None
        | _, _, _, _, _, _, _ => None
        end
      else None
  | _ => None
  end.

Definition row_tuple (r : row) : tuple := [CTimestamp (date r); CNumeric (value r)].

(** What a statement does to the tables of the transaction: an error
    message, or the new tables and the result set. *)
Definition run_stmt (q : stmt) (cat : gmap str (list row))
  : str + (gmap str (list row) * option (list tuple)) :=
  match q with
  | SelectExists n =>
      inr (cat, Some [[CBool (match cat !! n with Some _ => true | None => false end)]])
  | CreateTable n =>
      match cat !! n with
      | Some _ => inl (lit "relation already exists")
      | None => inr (<[n := []]> cat, None)
      end
  | InsertInto n d v =>
      match cat !! n with
      | None => inl (lit "relation does not exist")
      | Some rows =>
          match timestamp_in d with
          | None => inl (lit "invalid input syntax for type timestamp")
          | Some dt => inr (<[n := rows ++ [{| date := dt; value := v |}]]> cat, None)
          end
      end
  | SelectDateValue n =>
      match cat !! n with
      | None => inl (lit "relation does not exist")
      | Some rows => inr (cat, Some (map row_tuple rows))
      end
  | DropTableIfExists n => inr (delete n cat, None)
  end.

(** [psycopg2.connect], called with the parameters of [config]: whether
    the server accepts is the plan's; the session starts from the
    committed tables. *)
Definition connect (params : PyDict.dict str) : M server connection :=
  fun s =>
    match next_fault s with
    | (Some msg, s') => (Raise (Psycopg2Error msg), s')
    | (None, s') =>
        (Ok Connection,
         set_open (Some {| work := committed s'; results := None; aborted := false |}) s')
    end.

(** [connection.cursor()] *)
Definition new_cursor (c : connection) : M server cursor :=
  fun s =>
    match open s with
    | None => (Raise (Psycopg2Error (lit "connection already closed")), s)
    | Some _ => (Ok Cursor, s)
    end.

(** [cursor.execute(query, params)] *)
Definition execute (cur : cursor) (q : stmt) : M server unit :=
  fun s =>
    match open s with
    | None => (Raise (Psycopg2Error (lit "connection already closed")), s)
    | Some ses =>
        let fail msg s' :=
          (Raise (Psycopg2Error msg),
           set_open (Some {| work := work ses; results := None; aborted := true |}) s') in
        match next_fault (log_stmt q s) with
        | (Some msg, s') => fail msg s'
        | (None, s') =>
            if aborted ses then fail (lit "current transaction is aborted") s'
            else
              match run_stmt q (work ses) with
              | inl msg => fail msg s'
              | inr (cat, res) =>
                  (Ok tt, set_open (Some {| work := cat; results := res; aborted := false |}) s')
              end
        end
    end.

(** [cursor.fetchone()]: the next row of the result set, or [None]. *)
Definition fetchone (cur : cursor) : M server (option tuple) :=
  fun s =>
    match open s with
    | Some {| work := cat; results := Some rs; aborted := ab |} =>
        match rs with
        | [] => (Ok None, s)
        | r :: rs' =>
            (Ok (Some r), set_open (Some {| work := cat; results := Some rs'; aborted := ab |}) s)
        end
    | _ => (Raise (Psycopg2Error (lit "no results to fetch")), s)
    end.

(** [cursor.fetchall()]: the remaining rows of the result set. *)
Definition fetchall (cur : cursor) : M server (list tuple) :=
  fun s =>
    match open s with
    | Some {| work := cat; results := Some rs; aborted := ab |} =>
        (Ok rs, set_open (Some {| work := cat; results := Some []; aborted := ab |}) s)
    | _ => (Raise (Psycopg2Error (lit "no results to fetch")), s)
    end.

(** [connection.commit()]: the transaction's tables become the committed
    ones; a failed transaction is rolled back instead. *)
Definition commit (c : connection) : M server unit :=
  fun s =>
    match open s with
    | None => (Raise (Psycopg2Error (lit "connection already closed")), s)
    | Some ses =>
        match next_fault s with
        | (Some msg, s') => (Raise (Psycopg2Error msg), s')
        | (None, s') =>
            let cat := if aborted ses then committed s' else work ses in
            (Ok tt,
             set_open (Some {| work := cat; results := results ses; aborted := false |})
                      (set_committed cat s'))
        end
    end.

(** [cursor.close()]: the result set is dropped; nothing reaches the server. *)
Definition close_cursor (cur : cursor) : M server unit :=
  fun s =>
    match open s with
    | None => (Ok tt, s)
    | Some ses =>
        (Ok tt, set_open (Some {| work := work ses; results := None; aborted := aborted ses |}) s)
    end.

(** [connection.close()]: what was not committed is lost. *)
Definition close (c : connection) : M server unit :=
  fun s => (Ok tt, set_open None s).

End Pg.

(* ===================================================================== *)
(** ** The world of a request *)
(* ===================================================================== *)

(** A ticker of the exchange: the two entries the service reads, [None]
    when the entry is missing or null. *)
Record ticker := { bid : option float; timestamp : option Z }.

(** What a request runs against: the configuration files as
    [ConfigParser] reads them (sections with their options; a missing file
    has none), the answer of the exchange to [fetch_ticker] (an error
    text of [ccxt.BaseError], or a ticker), the offset of local time from
    UTC in seconds at a given instant, the store, and what was printed. *)
Record world := {
  ini_files : str -> list (str * list (str * str));
  kucoin : str -> str + ticker;
  utcoffset : Z -> Z;
  pg : Pg.server;
  stdout : list str }.

(** The local variables the three handlers share by name. *)
Record frame := {
  connection : option Pg.connection;
  cursor : option Pg.cursor;
  history_prices : option (PyDict.dict float) }.

Definition state := (world * frame)%type.

Definition set_pg (s : Pg.server) (w : world) : world :=
  {| ini_files := ini_files w; kucoin := kucoin w; utcoffset := utcoffset w;
     pg := s; stdout := stdout w |}.

(** A call into psycopg2. *)
Definition db {A} (m : M Pg.server A) : M state A :=
  fun '(w, f) => match m (pg w) with (r, s) => (r, (set_pg s w, f)) end.

(** [print(line)] *)
Definition print (line : str) : M state unit :=
  modify (fun '(w, f) =>
    ({| ini_files := ini_files w; kucoin := kucoin w; utcoffset := utcoffset w;
        pg := pg w; stdout := stdout w ++ [line] |}, f)).

Definition set_connection (c : option Pg.connection) : M state unit :=
  modify (fun '(w, f) =>
    (w, {| connection := c; cursor := cursor f; history_prices := history_prices f |})).
Definition set_cursor (c : option Pg.cursor) : M state unit :=
  modify (fun '(w, f) =>
    (w, {| connection := connection f; cursor := c; history_prices := history_prices f |})).
Definition set_history_prices (d : PyDict.dict float) : M state unit :=
  modify (fun '(w, f) =>
    (w, {| connection := connection f; cursor := cursor f; history_prices := Some d |})).

(** A handler is called with a fresh frame, which is dropped on return. *)
Definition call {A} (body : M state A) (w : world) : result A * world :=
  match body (w, {| connection := None; cursor := None; history_prices := None |}) with
  | (r, (w', _)) => (r, w')
  end.

Local Open Scope py_scope.

(* ===================================================================== *)
(** ** config.py *)
(* ===================================================================== *)

(** [parser.items(section)] when [parser.has_section(section)]. *)
Definition items (parser : list (str * list (str * str))) (section : str)
  : option (list (str * str)) :=
  match find (fun s => bool_decide (fst s = section)) parser with
  | Some s => Some (snd s)
  | None => None
  end.

Definition config (filename section : str) : M state (PyDict.dict str) :=
  parser <- gets (fun '(w, _) => ini_files w filename) ;;
  let db := [] in
  match items parser section with
  | Some params =>
      ret (fold_left (fun db param => PyDict.set (fst param) (snd param) db) params db)
  | None =>
      raise (Builtin Exception
               (lit "Section " ++ section ++ lit " is not found in the "
                ++ filename ++ lit " file."))
  end.

(* ===================================================================== *)
(** ** main.py *)
(* ===================================================================== *)

(** The value a path parameter [{currency}] can take: the router matches
    it against one non-empty path segment, so it holds no slash. *)
Definition path_param (X : str) : bool :=
  match X with
  | [] => false
  | _ => forallb (fun c => negb (c =? chr "/")%N) X
  end.

(** The pair symbol and the table name, as each handler computes them from
    its path parameter (lines 30-31, 150-151 and 207-208). *)
Definition price_currency_symbol (currency : str) : str :=
  upper currency ++ lit "/USDT".
Definition price_table_name (currency : str) : str :=
  lower (replace (chr "/") (chr "_") (price_currency_symbol currency)).

Definition price_history_currency_symbol (currency : str) : str :=
  upper currency ++ lit "/USDT".
Definition price_history_table_name (currency : str) : str :=
  lower (replace (chr "/") (chr "_") (price_history_currency_symbol currency)).

Definition delete_table_currency_symbol (currency : str) : str :=
  upper currency ++ lit "/USDT".
Definition delete_table_table_name (currency : str) : str :=
  lower (replace (chr "/") (chr "_") (delete_table_currency_symbol currency)).

(** [exchange = ccxt.kucoin(); exchange.fetch_ticker(symbol)] *)
Definition fetch_ticker (symbol : str) : M state ticker :=
  fun '(w, f) =>
    match kucoin w symbol with
    | inl msg => (Raise (BaseError msg), (w, f))
    | inr t => (Ok t, (w, f))
    end.

(** [x / 1_000] for the [timestamp] entry of a ticker. *)
Definition truediv_1000 (x : option Z) : M state float :=
  match x with
  | None =>
      raise (Builtin TypeError
               (lit "unsupported operand type(s) for /: 'NoneType' and 'int'"))
  | Some t => ret (Qmake t 1000)
  end.

(** [datetime.fromtimestamp(ts)] *)
Definition datetime_fromtimestamp (ts : float) : M state datetime :=
  off <- gets (fun '(w, _) => utcoffset w) ;;
  match fromtimestamp off ts with
  | None => raise (Builtin ValueError (lit "year is out of range"))
  | Some dt => ret dt
  end.

Definition connect : M state Pg.connection :=
  params <- config (lit "database.ini") (lit "postgresql") ;;
  print (lit "Connecting to postgreSQL datatbase...") ;;
  connection <- db (Pg.connect params) ;;
  ret connection.

(** Truth value of a result cell, for [if not ...]. *)
Definition truthy (c : Pg.cell) : bool :=
  match c with
  | Pg.CBool b => b
  | Pg.CTimestamp _ => true
  | Pg.CNumeric v => negb (Qnum v =? 0)
  end.

Definition table_exist (table_name : str) (cursor : Pg.cursor) : M state Pg.cell :=
  db (Pg.execute cursor (Pg.SelectExists table_name)) ;;
  r <- db (Pg.fetchone cursor) ;;
  match r with
  | None => raise (Builtin TypeError (lit "'NoneType' object is not subscriptable"))
  | Some [] => raise (Builtin IndexError (lit "tuple index out of range"))
  | Some (c :: _) => ret c
  end.

Definition create_table (table_name : str) (cursor : Pg.cursor) : M state unit :=
  db (Pg.execute cursor (Pg.CreateTable table_name)).

Definition insert_data_to_table (table_name date : str) (last_bid_price : float)
    (cursor : Pg.cursor) (connection : Pg.connection) : M state unit :=
  let data_to_insert := (date, last_bid_price) in
  db (Pg.execute cursor
        (Pg.InsertInto table_name (fst data_to_insert) (snd data_to_insert))) ;;
  db (Pg.commit connection) ;;
  print (lit "Record inserted successfully.").

(** The reply of [price]. *)
Record price_reply := { currency : str; last_bid_price : float; time : str }.

(** [if cursor: cursor.close()] and [if connection: connection.close()] *)
Definition close_both : M state unit :=
  cur <- gets (fun '(_, f) => cursor f) ;;
  match cur with Some k => db (Pg.close_cursor k) | None => ret tt end ;;
  con <- gets (fun '(_, f) => connection f) ;;
  match con with Some c => db (Pg.close c) | None => ret tt end.

(** The body of the inner [try] of [price] (lines 44-48). *)
Definition price_write_back (table_name date : str) (last_bid_price : float)
  : M state unit :=
  connection <- connect ;;
  set_connection (Some connection) ;;
  cursor <- db (Pg.new_cursor connection) ;;
  set_cursor (Some cursor) ;;
  exists_ <- table_exist table_name cursor ;;
  (if negb (truthy exists_) then create_table table_name cursor else ret tt) ;;
  insert_data_to_table table_name date last_bid_price cursor connection.

Definition price (currency : str) : M state price_reply :=
  let currency_symbol := price_currency_symbol currency in
  let table_name := price_table_name currency in
  try_except
    (ticker <- fetch_ticker currency_symbol ;;
     let last_bid_price := bid ticker in
     timestamp_seconds <- truediv_1000 (timestamp ticker) ;;
     dt <- datetime_fromtimestamp timestamp_seconds ;;
     let date := strftime dt in
     match last_bid_price with
     | None =>
         raise (HTTPException 400 (lit "Could not find bid price for " ++ currency_symbol))
     | Some last_bid_price =>
         set_connection None ;;
         set_cursor None ;;
         try_finally
           (try_except
              (price_write_back table_name date last_bid_price)
              isinstance_Exception
              (fun error =>
                 print (lit "Error while inserting into PostgreSQL: " ++ str_of error)))
           close_both ;;
         ret {| currency := currency; last_bid_price := last_bid_price; time := date |}
     end)
    isinstance_BaseError
    (fun e =>
       raise (HTTPException 400 (lit "An error occurred with KuCoin API: " ++ str_of e))).

(** [t.strftime(...)] and [float(v)] on result cells. *)
Definition cell_strftime (t : Pg.cell) : M state str :=
  match t with
  | Pg.CTimestamp dt => ret (strftime dt)
  | _ => raise (Builtin AttributeError (lit "object has no attribute 'strftime'"))
  end.
Definition cell_float (v : Pg.cell) : M state float :=
  match v with
  | Pg.CNumeric q => ret q
  | Pg.CBool b => ret (inject_Z (if b then 1 else 0))
  | Pg.CTimestamp _ => raise (Builtin TypeError (lit "float() argument must be a string or a real number"))
  end.

(** [{t.strftime('%Y-%m-%d %H:%M:%S'): float(v) for t, v in records}],
    filling [d] row by row. *)
Fixpoint history_comprehension (records : list Pg.tuple) (d : PyDict.dict float)
  : M state (PyDict.dict float) :=
  match records with
  | [] => ret d
  | [t; v] :: records' =>
      k <- cell_strftime t ;;
      x <- cell_float v ;;
      history_comprehension records' (PyDict.set k x d)
  | _ :: _ => raise (Builtin ValueError (lit "wrong number of values to unpack"))
  end.

Definition get_history_prices (table_name : str) (cursor : Pg.cursor)
  : M state (PyDict.dict float) :=
  db (Pg.execute cursor (Pg.SelectDateValue table_name)) ;;
  records <- db (Pg.fetchall cursor) ;;
  history_comprehension records [].

Definition price_history (currency : str) : M state (PyDict.dict float) :=
  let currency_symbol := price_history_currency_symbol currency in
  let table_name := price_history_table_name currency in
  set_connection None ;;
  set_cursor None ;;
  try_finally
    (try_except
       (connection <- connect ;;
        set_connection (Some connection) ;;
        cursor <- db (Pg.new_cursor connection) ;;
        set_cursor (Some cursor) ;;
        exists_ <- table_exist table_name cursor ;;
        (if negb (truthy exists_)
         then raise (Builtin Exception (lit "Table " ++ table_name ++ lit " does not exist."))
         else ret tt) ;;
        history_prices <- get_history_prices table_name cursor ;;
        set_history_prices history_prices)
       isinstance_BaseError
       (fun e =>
          raise (HTTPException 400 (lit "An error occurred with KuCoin API: " ++ str_of e))))
    close_both ;;
  hp <- gets (fun '(_, f) => history_prices f) ;;
  match hp with
  | Some d => ret d
  | None => raise (Builtin UnboundLocalError (lit "local variable 'history_prices' referenced before assignment"))
  end.

Definition delete_table_from_db (table_name : str) (cursor : Pg.cursor)
    (connection : Pg.connection) : M state unit :=
  db (Pg.execute cursor (Pg.DropTableIfExists table_name)) ;;
  db (Pg.commit connection) ;;
  print (lit "Table '" ++ table_name ++ lit "' deleted successfully.").

Definition delete_table (currency : str) : M state (PyDict.dict bool) :=
  let currency_symbol := delete_table_currency_symbol currency in
  let table_name := delete_table_table_name currency in
  set_connection None ;;
  set_cursor None ;;
  try_finally
    (try_except
       (connection <- connect ;;
        set_connection (Some connection) ;;
        cursor <- db (Pg.new_cursor connection) ;;
        set_cursor (Some cursor) ;;
        exists_ <- table_exist table_name cursor ;;
        (if negb (truthy exists_)
         then raise (Builtin Exception (lit "Table " ++ table_name ++ lit " does not exist."))
         else ret tt) ;;
        delete_table_from_db table_name cursor connection)
       isinstance_BaseError
       (fun e =>
          raise (HTTPException 400 (lit "An error occurred with KuCoin API: " ++ str_of e))))
    close_both ;;
  ret [(lit "Table deleted successfully", true)].

(* ===================================================================== *)
(** ** Vocabulary of the properties *)
(* ===================================================================== *)

(** [database.ini] has the section [connect] asks [config] for. *)
Definition configured (w : world) : bool :=
  match items (ini_files w (lit "database.ini")) (lit "postgresql") with
  | Some _ => true
  | None => false
  end.

(** The store answers: [connect] finds its parameters and no call of the
    fault plan fails. *)
Definition store_answers (w : world) : Prop :=
  configured w = true /\ Pg.faults (pg w) = [].

(** [datetime.utcfromtimestamp(ts)]: the breakdown of [ts] in UTC. *)
Definition utcfromtimestamp (ts : float) : option datetime :=
  fromtimestamp (fun _ => 0) ts.

(** The mapping [get_history_prices] builds from the rows of a table:
    each row in turn sets the entry of its formatted date. *)
Definition add_row (d : PyDict.dict float) (r : Pg.row) : PyDict.dict float :=
  PyDict.set (strftime (Pg.date r)) (Pg.value r) d.
Definition history_of (rows : list Pg.row) : PyDict.dict float :=
  fold_left add_row rows [].

(** The frame a handler starts with. *)
Definition fresh_frame : frame :=
  {| connection := None; cursor := None; history_prices := None |}.

(** A [datetime] cut to whole seconds. *)
Definition whole_second (dt : datetime) : datetime :=
  {| year := year dt; month := month dt; day := day dt;
     hour := hour dt; minute := minute dt; second := second dt; microsecond := 0 |}.

(** [f] holds on z, z + 1, ..., z + n - 1. *)
Fixpoint holds_from (n : nat) (z : Z) (f : Z -> bool) : bool :=
  match n with
  | O => true
  | S n' => f z && holds_from n' (z + 1) f
  end.

(** One cycle of 400 years has valid dates, and the last year of the cycle
    begins after day 145731. *)
Definition cycle_day_ok (r : Z) : bool :=
  let '(y, m, d) := ord2ymd (r + 1) in
  (1 <=? y) && (y <=? 400) && (1 <=? m) && (m <=? 12) && (1 <=? d)
  && (d <=? days_in_month y m) && ((145730 <? r) || (y <=? 399)).

(** *** Sample worlds *)

Definition sample_ini (filename : str) : list (str * list (str * str)) :=
  if bool_decide (filename = lit "database.ini")
  then [(lit "postgresql",
         [(lit "host", lit "localhost"); (lit "database", lit "qorpo");
          (lit "user", lit "postgres"); (lit "password", lit "postgres")])]
  else [].

Definition sample_server (tables : gmap str (list Pg.row)) (plan : list (option str))
  : Pg.server :=
  {| Pg.committed := tables; Pg.open := None; Pg.faults := plan; Pg.sent := [] |}.

(** An exchange that knows the pair of [X] and answers with ticker [tk]. *)
Definition sample_exchange (X : str) (tk : ticker) (symbol : str) : str + ticker :=
  if bool_decide (symbol = upper X ++ lit "/USDT") then inr tk
  else inl (lit "kucoin does not have market symbol " ++ symbol).

Definition sample_world (X : str) (tk : ticker) (offset : Z) (srv : Pg.server) : world :=
  {| ini_files := sample_ini; kucoin := sample_exchange X tk;
     utcoffset := fun _ => offset; pg := srv; stdout := [] |}.

(** 2023-11-14 22:13:20.123 UTC, bid 36250.5 *)
Definition sample_ticker : ticker :=
  {| bid := Some (Qmake 72501 2); timestamp := Some 1700000000123 |}.

Definition sample_row (us : Z) (v : Q) : Pg.row :=
  {| Pg.date := {| year := 2023; month := 11; day := 14;
                   hour := 22; minute := 13; second := 20; microsecond := us |};
     Pg.value := v |}.

(** The currency of the samples and its table. *)
Definition btc : str := lit "btc".

(** A server in UTC whose store is empty and answers. *)
Definition world_btc : world :=
  sample_world btc sample_ticker 0 (sample_server ∅ []).

(** The same, one hour east of UTC. *)
Definition world_cet : world :=
  sample_world btc sample_ticker 3600 (sample_server ∅ []).

(** The exchange has a timestamp but no bid. *)
Definition world_no_bid : world :=
  sample_world btc {| bid := None; timestamp := Some 1700000000123 |} 0
    (sample_server ∅ []).

(** The exchange has neither. *)
Definition world_no_timestamp : world :=
  sample_world btc {| bid := None; timestamp := None |} 0 (sample_server ∅ []).

(** The store refuses the connection. *)
Definition world_down : world :=
  sample_world btc sample_ticker 0 (sample_server ∅ [Some (lit "connection refused")]).

(** The currency 1INCH: the connection and the existence query succeed,
    and the store rejects [CREATE TABLE 1inch_usdt], a name that starts
    with a digit. *)
Definition world_1inch : world :=
  sample_world (lit "1inch") sample_ticker 0
    (sample_server ∅ [None; None; Some (lit "syntax error at or near 1")]).

(** The table of [btc] holds two rows of the same second. *)
Definition world_two_rows : world :=
  sample_world btc sample_ticker 0
    (sample_server
       {[ lit "btc_usdt" := [sample_row 0 (Qmake 36250 1); sample_row 500000 (Qmake 36251 1)] ]}
       []).

(** The configuration, the exchange and the clock of [w'] are those of [w]. *)
Definition same_env (w w' : world) : Prop :=
  ini_files w' = ini_files w /\ kucoin w' = kucoin w /\ utcoffset w' = utcoffset w.

(** There is no [database.ini]. *)
Definition world_unconfigured : world :=
  {| ini_files := fun _ => []; kucoin := sample_exchange btc sample_ticker;
     utcoffset := fun _ => 0; pg := sample_server ∅ []; stdout := [] |}.

(** The table of [btc] is missing; the connection, the existence query
    and [CREATE TABLE] succeed, and the store fails the [INSERT]. *)
Definition world_insert_fails : world :=
  sample_world btc sample_ticker 0
    (sample_server ∅ [None; None; None; Some (lit "disk full")]).

(** The ticker of [world_btc] 876 milliseconds later, in the same second. *)
Definition world_btc_later : world :=
  sample_world btc {| bid := Some (Qmake 72503 2); timestamp := Some 1700000000999 |} 0
    (sample_server ∅ []).

(** The exchange does not list the pair of [btc]. *)
Definition world_unknown_pair : world :=
  sample_world (lit "eth") sample_ticker 0 (sample_server ∅ []).

(** The table of [btc] holds two rows of consecutive seconds. *)
Definition world_two_seconds : world :=
  sample_world btc sample_ticker 0
    (sample_server
       {[ lit "btc_usdt" :=
            [sample_row 0 (Qmake 36250 1);
             {| Pg.date := {| year := 2023; month := 11; day := 14;
                              hour := 22; minute := 13; second := 21; microsecond := 0 |};
                Pg.value := Qmake 36251 1 |}] ]}
       []).

(** The entry of the history mapping a row gives. *)
Definition row_entry (r : Pg.row) : str * float := (strftime (Pg.date r), Pg.value r).

(** The line [price] prints when the write-back raised [e]. *)
Definition error_line (e : exn) : str :=
  lit "Error while inserting into PostgreSQL: " ++ str_of e.

(** The message of the two handlers that need the table. *)
Definition does_not_exist (table_name : str) : exn :=
  Builtin Exception (lit "Table " ++ table_name ++ lit " does not exist.").

(** *** Proof tools *)

Arguments lit : simpl never.
Arguments strftime : simpl never.
Arguments items : simpl never.
Arguments Pg.timestamp_in : simpl never.
Arguments price_table_name : simpl never.
Arguments price_currency_symbol : simpl never.
Arguments price_history_table_name : simpl never.
Arguments delete_table_table_name : simpl never.
Arguments price_write_back : simpl never.
Arguments fromtimestamp : simpl never.
Arguments close_both : simpl never.

(** Unfolds the handlers and the monad down to matches on the state. *)
Ltac py_unfold :=
  unfold call, price, price_history, delete_table, delete_table_from_db,
    get_history_prices, insert_data_to_table, create_table, table_exist,
    connect, config, close_both, datetime_fromtimestamp, truediv_1000,
    fetch_ticker, print, db, set_connection, set_cursor, set_history_prices,
    Pg.connect, Pg.new_cursor, Pg.execute, Pg.fetchone, Pg.fetchall, Pg.commit,
    Pg.close, Pg.close_cursor, Pg.next_fault, Pg.log_stmt, Pg.set_open,
    Pg.set_committed, Pg.run_stmt, set_pg,
    try_finally, try_except, bind, gets, modify, ret, raise.

(** Opens a world whose store answers. *)
Ltac setup w Hc Hf :=
  destruct w as [ini ku off [com op fl snt] out];
  unfold configured in Hc; simpl in *; subst fl;
  destruct (items _ _) as [params|] eqn:Hitems; [clear Hc | discriminate Hc].

(** Case analysis on what the fault plan holds for the next call. *)
Ltac plan_cases :=
  repeat match goal with
         | |- context [match ?l with [] => _ | _ :: _ => _ end] =>
             is_var l; destruct l as [|[?|] ?]; cbn; try discriminate
         end.

(** Runs a handler through every case of the fault plan, given the lookup
    [Hn] of its table and the equation [Hrows] of the comprehension. *)
Ltac crunch Hn Hrows :=
  repeat first [ progress plan_cases | rewrite Hn; cbn
               | rewrite lookup_insert_eq; cbn
               | rewrite Hrows; cbn ].

(** Case analysis on the comparisons of a code point. *)
Ltac split_cmp :=
  repeat match goal with
         | |- context [N.leb ?a ?b] => destruct (N.leb_spec a b); simpl
         | |- context [N.eqb ?a ?b] => destruct (N.eqb_spec a b); simpl
         end.

(* ===================================================================== *)
(** ** Strings: case mapping and table names *)
(* ===================================================================== *)

Section CaseMapping.

Local Open Scope N_scope.

(** On an ASCII character other than the slash, uppercasing, replacing
    the slash and lowercasing is lowercasing. *)
Lemma lower_replace_upper_cp (c : codepoint) :
  c < 128 -> c <> chr "/" ->
  lower (replace (chr "/") (chr "_") (upper_cp c)) = lower_cp c.
Proof.
  intros Hc Hs. change (chr "/") with 47 in *. change (chr "_") with 95.
  unfold lower, replace, upper_cp.
  split_cmp; try lia; unfold lower_cp; split_cmp; try lia;
    rewrite ?app_nil_r; try reflexivity; f_equal; lia.
Qed.

Lemma lower_replace_upper (X : str) :
  is_ascii X = true ->
  forallb (fun c => negb (c =? chr "/")) X = true ->
  lower (replace (chr "/") (chr "_") (upper X)) = lower X.
Proof.
  induction X as [|c X IH]; [reflexivity|].
  cbn [is_ascii forallb].
  intros [Hc HX]%andb_prop [Hs HS]%andb_prop.
  apply N.ltb_lt in Hc. apply negb_true_iff, N.eqb_neq in Hs.
  change (upper (c :: X)) with (upper_cp c ++ upper X).
  change (lower (c :: X)) with (lower_cp c ++ lower X).
  unfold replace, lower. rewrite map_app, flat_map_app. f_equal.
  - apply (lower_replace_upper_cp c Hc Hs).
  - apply IH; assumption.
Qed.

End CaseMapping.

Lemma path_param_no_slash (X : str) :
  path_param X = true -> forallb (fun c => negb (c =? chr "/")%N) X = true.
Proof. destruct X; [discriminate | trivial]. Qed.

(** The name every handler derives, for an ASCII path parameter. *)
Lemma table_name_ascii_eq (X : str) :
  is_ascii X = true -> path_param X = true ->
  lower (replace (chr "/") (chr "_") (upper X ++ lit "/USDT")) = lower X ++ lit "_usdt".
Proof.
  intros Ha Hp. unfold replace, lower.
  rewrite map_app, flat_map_app. f_equal.
  apply (lower_replace_upper X Ha (path_param_no_slash X Hp)).
Qed.

(* ===================================================================== *)
(** ** Dates: the text of a timestamp and local time *)
(* ===================================================================== *)

Lemma digit_val_digit (k : Z) : digit_val (digit k) = Some (k mod 10).
Proof.
  unfold digit_val, digit.
  assert (H : 0 <= k mod 10 < 10) by (apply Z.mod_pos_bound; lia).
  destruct (N.leb_spec 48 (48 + Z.to_N (k mod 10))); [|lia].
  destruct (N.leb_spec (48 + Z.to_N (k mod 10)) 57); [|lia].
  simpl. f_equal. lia.
Qed.

Lemma two_digits_digit (a b : Z) :
  Pg.two_digits (digit a) (digit b) = Some (10 * (a mod 10) + b mod 10).
Proof. unfold Pg.two_digits. now rewrite !digit_val_digit. Qed.

Lemma days_in_month_le (y m : Z) : days_in_month y m <= 31.
Proof.
  unfold days_in_month, DAYS_IN_MONTH.
  destruct ((m =? 2) && is_leap y); [lia|].
  destruct m as [|p|p]; try lia.
  do 4 (try destruct p as [p|p|]; try lia).
Qed.

Lemma strftime_whole_second (dt : datetime) : strftime (whole_second dt) = strftime dt.
Proof. reflexivity. Qed.

Lemma check_fields_bounds (dt : datetime) :
  check_fields dt = true ->
  1 <= year dt <= 9999 /\ 1 <= month dt <= 12 /\ 1 <= day dt <= 31 /\
  0 <= hour dt <= 23 /\ 0 <= minute dt <= 59 /\ 0 <= second dt <= 59.
Proof.
  unfold check_fields, check_date_fields, check_time_fields.
  rewrite !andb_true_iff, !Z.leb_le.
  pose proof (days_in_month_le (year dt) (month dt)). lia.
Qed.

Lemma check_fields_whole_second (dt : datetime) :
  check_fields dt = true -> check_fields (whole_second dt) = true.
Proof.
  unfold check_fields, check_time_fields. simpl.
  rewrite !andb_true_iff, !Z.leb_le. intuition lia.
Qed.

Lemma timestamp_in_strftime (dt : datetime) :
  check_fields dt = true -> Pg.timestamp_in (strftime dt) = Some (whole_second dt).
Proof.
  intros Hc. pose proof (check_fields_bounds dt Hc) as B.
  apply check_fields_whole_second in Hc.
  unfold strftime, pad4, pad2. cbn [app]. unfold Pg.timestamp_in.
  cbn [N.eqb chr N_of_ascii Pos.eqb andb N_of_digits N.add N.mul Pos.add Pos.mul].
  rewrite !two_digits_digit.
  replace (100 * (10 * ((year dt / 1000) mod 10) + (year dt / 100) mod 10)
           + (10 * ((year dt / 10) mod 10) + year dt mod 10)) with (year dt)
    by (Z.div_mod_to_equations; lia).
  replace (10 * ((month dt / 10) mod 10) + month dt mod 10) with (month dt)
    by (Z.div_mod_to_equations; lia).
  replace (10 * ((day dt / 10) mod 10) + day dt mod 10) with (day dt)
    by (Z.div_mod_to_equations; lia).
  replace (10 * ((hour dt / 10) mod 10) + hour dt mod 10) with (hour dt)
    by (Z.div_mod_to_equations; lia).
  replace (10 * ((minute dt / 10) mod 10) + minute dt mod 10) with (minute dt)
    by (Z.div_mod_to_equations; lia).
  replace (10 * ((second dt / 10) mod 10) + second dt mod 10) with (second dt)
    by (Z.div_mod_to_equations; lia).
  fold (whole_second dt). now rewrite Hc.
Qed.

Lemma round_half_even_exact (n k : Z) (d : positive) :
  n = k * Z.pos d -> round_half_even (Qmake n d) = k.
Proof.
  intros ->. unfold round_half_even.
  assert (F : Qfloor (Qmake (k * Z.pos d) d) = k)
    by (unfold Qfloor; apply Z.div_mul; lia).
  rewrite F. unfold Qcompare, Qminus, Qplus, Qopp, inject_Z. cbn [Qnum Qden].
  replace (k * Z.pos d * 1 + - k * Z.pos d) with 0 by lia. reflexivity.
Qed.

Lemma fromtimestamp_ms (off : Z -> Z) (t : Z) :
  fromtimestamp off (Qmake t 1000) =
  let dt := broken_down (t / 1000 + off (t / 1000)) (t mod 1000 * 1000) in
  if check_fields dt then Some dt else None.
Proof.
  unfold fromtimestamp.
  change (Qmult (Qmake t 1000) (inject_Z 1000000)) with (Qmake (t * 1000000) 1000).
  rewrite (round_half_even_exact _ (t * 1000)) by lia.
  replace (t * 1000 / 1000000) with (t / 1000) by (Z.div_mod_to_equations; lia).
  replace (t * 1000 mod 1000000) with (t mod 1000 * 1000) by (Z.div_mod_to_equations; lia).
  reflexivity.
Qed.

Lemma utcfromtimestamp_seconds (s : Z) :
  utcfromtimestamp (inject_Z s) =
  let dt := broken_down s 0 in if check_fields dt then Some dt else None.
Proof.
  unfold utcfromtimestamp, fromtimestamp.
  change (Qmult (inject_Z s) (inject_Z 1000000)) with (Qmake (s * 1000000) 1).
  rewrite (round_half_even_exact _ (s * 1000000)) by lia.
  rewrite Z.div_mul, Z.mod_mul, Z.add_0_r by lia. reflexivity.
Qed.

Lemma broken_down_whole_second (secs us : Z) :
  whole_second (broken_down secs us) = broken_down secs 0.
Proof. unfold broken_down. destruct (ord2ymd _) as [[y m] d]. reflexivity. Qed.

Lemma fromtimestamp_checked off ts dt : fromtimestamp off ts = Some dt -> check_fields dt = true.
Proof.
  unfold fromtimestamp. cbv zeta. destruct (check_fields _) eqn:E; [|discriminate].
  now intros [= <-].
Qed.

(** Local time is UTC shifted by the offset. *)
Lemma fromtimestamp_local (off : Z -> Z) (t : Z) (dt : datetime) :
  fromtimestamp off (Qmake t 1000) = Some dt ->
  utcfromtimestamp (inject_Z (t / 1000 + off (t / 1000))) = Some (whole_second dt).
Proof.
  rewrite fromtimestamp_ms, utcfromtimestamp_seconds. cbv zeta.
  destruct (check_fields (broken_down _ (_ * _))) eqn:E; [|discriminate].
  intros [= <-]. rewrite <- (broken_down_whole_second _ (t mod 1000 * 1000)).
  now rewrite (check_fields_whole_second _ E).
Qed.

(** *** [fromtimestamp] is defined on the whole range of [datetime] *)

Lemma holds_from_spec (n : nat) (f : Z -> bool) (z0 : Z) :
  holds_from n z0 f = true -> forall z, z0 <= z < z0 + Z.of_nat n -> f z = true.
Proof.
  revert z0. induction n as [|n IH]; intros z0 H z Hz; [lia|].
  cbn [holds_from] in H. apply andb_prop in H as [H0 H1].
  destruct (Z.eq_dec z z0) as [->|]; [exact H0|].
  apply (IH (z0 + 1)); [exact H1 | lia].
Qed.

Lemma cycle_ok : holds_from (Z.to_nat 146097) 0 cycle_day_ok = true.
Proof. vm_compute. reflexivity. Qed.

Lemma is_leap_cycle (q y : Z) : is_leap (y + 400 * q) = is_leap y.
Proof.
  unfold is_leap.
  replace ((y + 400 * q) mod 4) with (y mod 4) by (Z.div_mod_to_equations; lia).
  replace ((y + 400 * q) mod 100) with (y mod 100) by (Z.div_mod_to_equations; lia).
  replace ((y + 400 * q) mod 400) with (y mod 400) by (Z.div_mod_to_equations; lia).
  reflexivity.
Qed.

Lemma ord2ymd_cycle (q r : Z) :
  0 <= r < 146097 ->
  ord2ymd (146097 * q + r + 1)
  = let '(y, m, d) := ord2ymd (r + 1) in (y + 400 * q, m, d).
Proof.
  intros Hr. unfold ord2ymd. cbv zeta.
  replace (146097 * q + r + 1 - 1) with (r + q * 146097) by lia.
  replace (r + 1 - 1) with r by lia.
  rewrite Z.div_add, Z_mod_plus_full by lia.
  rewrite (Z.div_small r 146097), (Z.mod_small r 146097) by lia.
  repeat match goal with
         | |- context [if ?c then _ else _] => destruct c
         end; f_equal; try f_equal; lia.
Qed.

Lemma ord2ymd_valid (n : Z) :
  1 <= n <= 3652059 ->
  let '(y, m, d) := ord2ymd n in check_date_fields y m d = true.
Proof.
  intros Hn.
  pose proof (Z.div_mod (n - 1) 146097 ltac:(lia)) as Hdm.
  pose proof (Z.mod_pos_bound (n - 1) 146097 ltac:(lia)) as Hr.
  set (q := (n - 1) / 146097) in *. set (r := (n - 1) mod 146097) in *.
  replace n with (146097 * q + r + 1) by lia.
  rewrite (ord2ymd_cycle q r Hr).
  pose proof (holds_from_spec _ _ _ cycle_ok r ltac:(lia)) as Hc.
  unfold cycle_day_ok in Hc. destruct (ord2ymd (r + 1)) as [[y m] d].
  unfold check_date_fields, days_in_month in *. rewrite is_leap_cycle.
  rewrite !andb_true_iff, orb_true_iff in Hc. rewrite !andb_true_iff.
  rewrite ?Z.leb_le, ?Z.ltb_lt in *. 
  assert (0 <= q <= 24) by lia.
  intuition lia.
Qed.

(** A timestamp in milliseconds whose local time lies between
    0001-01-01 00:00:00 and 9999-12-31 23:59:59 has a [datetime]. *)
Lemma fromtimestamp_total (off : Z -> Z) (t : Z) :
  -62135596800 <= t / 1000 + off (t / 1000) < 253402300800 ->
  exists dt, fromtimestamp off (Qmake t 1000) = Some dt.
Proof.
  intros H. rewrite fromtimestamp_ms. cbv zeta.
  set (local := t / 1000 + off (t / 1000)) in *.
  assert (Hc : check_fields (broken_down local (t mod 1000 * 1000)) = true).
  { unfold broken_down.
    pose proof (ord2ymd_valid (local / 86400 + 719163)
                  ltac:(Z.div_mod_to_equations; lia)) as Hd.
    destruct (ord2ymd _) as [[y m] d].
    unfold check_fields. cbn [year month day hour minute second microsecond].
    rewrite Hd. unfold check_time_fields.
    rewrite !andb_true_iff, !Z.leb_le. Z.div_mod_to_equations. lia. }
  rewrite Hc. eexists. reflexivity.
Qed.

(* ===================================================================== *)
(** ** Dictionaries and the history mapping *)
(* ===================================================================== *)

Section Dict.
Context {V : Type}.
Implicit Types (d : PyDict.dict V) (k : str) (v : V).

Lemma get_set_eq k v d : PyDict.get k (PyDict.set k v d) = Some v.
Proof.
  induction d as [|[k' v'] d IH]; simpl.
  - now rewrite bool_decide_eq_true_2.
  - destruct (bool_decide (k' = k)) eqn:E; simpl; rewrite E; [reflexivity | exact IH].
Qed.

Lemma get_set_ne k k' v d : k <> k' -> PyDict.get k' (PyDict.set k v d) = PyDict.get k' d.
Proof.
  intros Hne. induction d as [|[k0 v0] d IH]; simpl.
  - now rewrite bool_decide_eq_false_2.
  - destruct (bool_decide (k0 = k)) eqn:E; simpl.
    + apply bool_decide_eq_true_1 in E. subst k0.
      now rewrite bool_decide_eq_false_2.
    + now rewrite IH.
Qed.

Lemma count_set_eq k v d : PyDict.count k (PyDict.set k v d) = Nat.max 1 (PyDict.count k d).
Proof.
  unfold PyDict.count. induction d as [|[k' v'] d IH]; simpl.
  - now rewrite bool_decide_eq_true_2.
  - destruct (bool_decide (k' = k)) eqn:E; simpl; rewrite E; simpl; [lia | exact IH].
Qed.

Lemma count_set_ne k k' v d : k <> k' -> PyDict.count k' (PyDict.set k v d) = PyDict.count k' d.
Proof.
  intros Hne. unfold PyDict.count. induction d as [|[k0 v0] d IH]; simpl.
  - now rewrite bool_decide_eq_false_2.
  - destruct (bool_decide (k0 = k)) eqn:E; simpl.
    + destruct (bool_decide (k0 = k')); reflexivity.
    + destruct (bool_decide (k0 = k')); simpl; now rewrite IH.
Qed.

Lemma count_set_le k k' v d :
  (PyDict.count k' d <= 1)%nat -> (PyDict.count k' (PyDict.set k v d) <= 1)%nat.
Proof.
  intros H. destruct (decide (k = k')) as [->|Hne].
  - rewrite count_set_eq. lia.
  - now rewrite count_set_ne.
Qed.

Lemma get_count k v d : PyDict.get k d = Some v -> (1 <= PyDict.count k d)%nat.
Proof.
  unfold PyDict.count. induction d as [|[k' v'] d IH]; simpl; [discriminate|].
  destruct (bool_decide (k' = k)); simpl; [lia | exact IH].
Qed.
End Dict.


Lemma history_of_count (rows : list Pg.row) (d : PyDict.dict float) (k : str) :
  (PyDict.count k d <= 1)%nat -> (PyDict.count k (fold_left add_row rows d) <= 1)%nat.
Proof.
  revert d. induction rows as [|r rows IH]; intros d H; simpl; [exact H|].
  apply IH, count_set_le, H.
Qed.

Lemma history_of_skip (rows : list Pg.row) (d : PyDict.dict float) (k : str) :
  Forall (fun r => strftime (Pg.date r) <> k) rows ->
  PyDict.get k (fold_left add_row rows d) = PyDict.get k d.
Proof.
  revert d. induction rows as [|r rows IH]; intros d H; simpl; [reflexivity|].
  inversion H as [|? ? Hr Hrows]; subst.
  rewrite IH by assumption. now apply get_set_ne.
Qed.

Lemma history_of_last (l1 l3 : list Pg.row) (b : Pg.row) (k : str) :
  strftime (Pg.date b) = k ->
  Forall (fun r => strftime (Pg.date r) <> k) l3 ->
  PyDict.get k (history_of (l1 ++ b :: l3)) = Some (Pg.value b).
Proof.
  intros Hb H3. unfold history_of.
  rewrite fold_left_app. simpl. rewrite history_of_skip by assumption.
  unfold add_row at 1. rewrite Hb. apply get_set_eq.
Qed.

(* ===================================================================== *)
(** ** The outcomes of [price] *)
(* ===================================================================== *)

Lemma close_both_ok (w : world) (f : frame) :
  exists o, close_both (w, f) = (Ok tt, (set_pg (Pg.set_open o (pg w)) w, f)).
Proof.
  destruct w as [ini ku off [com op fl snt] out], f as [[c|] [k|] h];
    py_unfold; cbn; try destruct op; cbn; eexists; reflexivity.
Qed.

Lemma price_api_error X w msg :
  kucoin w (price_currency_symbol X) = inl msg ->
  call (price X) w =
  (Raise (HTTPException 400 (lit "An error occurred with KuCoin API: " ++ msg)), w).
Proof.
  intros Hk. destruct w as [ini ku off srv out]. simpl in Hk.
  py_unfold. cbn. rewrite Hk. reflexivity.
Qed.

Lemma price_no_timestamp X w tk :
  kucoin w (price_currency_symbol X) = inr tk -> timestamp tk = None ->
  call (price X) w =
  (Raise (Builtin TypeError
            (lit "unsupported operand type(s) for /: 'NoneType' and 'int'")), w).
Proof.
  intros Hk Ht. destruct w as [ini ku off srv out]. simpl in Hk.
  py_unfold. cbn. rewrite Hk, Ht. reflexivity.
Qed.

Lemma price_out_of_range X w tk t :
  kucoin w (price_currency_symbol X) = inr tk -> timestamp tk = Some t ->
  fromtimestamp (utcoffset w) (Qmake t 1000) = None ->
  call (price X) w = (Raise (Builtin ValueError (lit "year is out of range")), w).
Proof.
  intros Hk Ht Hf. destruct w as [ini ku off srv out]. simpl in Hk, Hf.
  py_unfold. cbn. rewrite Hk, Ht. cbn. rewrite Hf. reflexivity.
Qed.

Lemma price_no_bid X w tk t dt :
  kucoin w (price_currency_symbol X) = inr tk -> timestamp tk = Some t ->
  fromtimestamp (utcoffset w) (Qmake t 1000) = Some dt ->
  bid tk = None ->
  call (price X) w =
  (Raise (HTTPException 400 (lit "Could not find bid price for " ++ price_currency_symbol X)), w).
Proof.
  intros Hk Ht Hf Hb. destruct w as [ini ku off srv out]. simpl in Hk, Hf.
  py_unfold. cbn. rewrite Hk, Ht. cbn. rewrite Hf, Hb. reflexivity.
Qed.

Lemma price_bid X w tk t dt p :
  kucoin w (price_currency_symbol X) = inr tk -> timestamp tk = Some t ->
  fromtimestamp (utcoffset w) (Qmake t 1000) = Some dt ->
  bid tk = Some p ->
  exists o s1,
    call (price X) w =
    (Ok {| currency := X; last_bid_price := p; time := strftime dt |},
     set_pg (Pg.set_open o (pg (fst s1))) (fst s1))
    /\ match price_write_back (price_table_name X) (strftime dt) p (w, fresh_frame) with
       | (Ok _, s) => s1 = s
       | (Raise e, (w', f')) =>
           s1 = ({| ini_files := ini_files w'; kucoin := kucoin w'; utcoffset := utcoffset w';
                    pg := pg w'; stdout := stdout w' ++ [error_line e] |}, f')
       end.
Proof.
  intros Hk Ht Hf Hb. destruct w as [ini ku off srv out]. simpl in Hk, Hf.
  unfold call, price, datetime_fromtimestamp, truediv_1000, fetch_ticker,
    set_connection, set_cursor, print, try_finally, try_except, bind, gets, modify, ret, raise.
  cbn. rewrite Hk, Ht. cbn. rewrite Hf, Hb. fold fresh_frame.
  destruct (price_write_back _ _ _ _) as [[[]|e] [w' f']] eqn:E.
  - destruct (close_both_ok w' f') as [o ->]. exists o, (w', f'). split; reflexivity.
  - replace (isinstance_Exception e) with true by (destruct e; reflexivity).
    match goal with |- context [close_both (?a, ?b)] => destruct (close_both_ok a b) as [o ->] end.
    eexists o, (_, f'). split; reflexivity.
Qed.


(** A write-back that completes has stored the row, whatever the plan. *)
Lemma price_write_back_ok name d p w s1 :
  price_write_back name d p (w, fresh_frame) = (Ok tt, s1) ->
  exists rows dt,
    Pg.timestamp_in d = Some dt
    /\ Pg.committed (pg (fst s1)) !! name = Some (rows ++ [{| Pg.date := dt; Pg.value := p |}]).
Proof.
  destruct w as [ini ku off [com op fl snt] out].
  unfold price_write_back. py_unfold. cbn.
  destruct (items _ _) as [params|]; cbn; [|discriminate].
  destruct (com !! name) as [rows|] eqn:Hn;
    destruct (Pg.timestamp_in d) as [dt|] eqn:Hd; cbn;
    repeat first [ progress plan_cases | rewrite Hn; cbn | rewrite Hd; cbn
                 | rewrite lookup_insert_eq; cbn ];
    try discriminate;
    intros [= <-]; cbn;
    first [ exists rows, dt | exists [], dt ];
    rewrite lookup_insert_eq; split; reflexivity.
Qed.

(* ===================================================================== *)
(** ** The handlers on a store that answers *)
(* ===================================================================== *)

Lemma history_comprehension_rows (rows : list Pg.row) (d : PyDict.dict float) (s : state) :
  history_comprehension (map Pg.row_tuple rows) d s = (Ok (fold_left add_row rows d), s).
Proof.
  revert d. induction rows as [|r rows IH]; intros d; [reflexivity|].
  simpl. unfold bind, ret. apply IH.
Qed.

Lemma price_write_back_answers name dt p w :
  configured w = true -> Pg.faults (pg w) = [] -> check_fields dt = true ->
  exists w1 f1,
    price_write_back name (strftime dt) p (w, fresh_frame) = (Ok tt, (w1, f1))
    /\ Pg.committed (pg w1)
       = <[name := default [] (Pg.committed (pg w) !! name)
                   ++ [{| Pg.date := whole_second dt; Pg.value := p |}]]>
           (Pg.committed (pg w))
    /\ Pg.faults (pg w1) = [] /\ ini_files w1 = ini_files w.
Proof.
  intros Hc Hf Hdt. setup w Hc Hf.
  unfold price_write_back. py_unfold. cbn. rewrite Hitems. cbn.
  destruct (com !! name) as [rows|] eqn:Hn; cbn.
  - rewrite Hn. rewrite (timestamp_in_strftime dt Hdt). cbn.
    do 2 eexists. split; [reflexivity|]. cbn. auto.
  - rewrite Hn. cbn. rewrite lookup_insert_eq. rewrite (timestamp_in_strftime dt Hdt). cbn.
    do 2 eexists. split; [reflexivity|]. cbn. rewrite insert_insert_eq. auto.
Qed.

Lemma price_answers X w tk t dt p :
  configured w = true -> Pg.faults (pg w) = [] ->
  kucoin w (price_currency_symbol X) = inr tk -> timestamp tk = Some t ->
  fromtimestamp (utcoffset w) (Qmake t 1000) = Some dt ->
  bid tk = Some p ->
  exists w1,
    call (price X) w
    = (Ok {| currency := X; last_bid_price := p; time := strftime dt |}, w1)
    /\ Pg.committed (pg w1)
       = <[price_table_name X :=
             default [] (Pg.committed (pg w) !! price_table_name X)
             ++ [{| Pg.date := whole_second dt; Pg.value := p |}]]>
           (Pg.committed (pg w))
    /\ Pg.faults (pg w1) = [] /\ configured w1 = true.
Proof.
  intros Hc Hf Hk Ht Hdt Hb.
  destruct (price_bid X w tk t dt p Hk Ht Hdt Hb) as (o & s1 & -> & Hs1).
  destruct (price_write_back_answers (price_table_name X) dt p w Hc Hf
              (fromtimestamp_checked _ _ _ Hdt)) as (w1 & f1 & E & Hcom & Hfl & Hini).
  rewrite E in Hs1. subst s1. eexists. split; [reflexivity|].
  unfold configured in *. cbn. rewrite Hini. auto.
Qed.

Lemma price_history_present X w rows :
  configured w = true -> Pg.faults (pg w) = [] ->
  Pg.committed (pg w) !! price_history_table_name X = Some rows ->
  exists w1,
    call (price_history X) w = (Ok (history_of rows), w1)
    /\ Pg.committed (pg w1) = Pg.committed (pg w)
    /\ Pg.sent (pg w1)
       = Pg.sent (pg w) ++ [Pg.SelectExists (price_history_table_name X);
                            Pg.SelectDateValue (price_history_table_name X)].
Proof.
  intros Hc Hf Hn. setup w Hc Hf.
  py_unfold. cbn. rewrite Hitems. cbn. rewrite Hn. cbn. rewrite Hn. cbn.
  rewrite history_comprehension_rows. cbn.
  eexists. split; [reflexivity|]. cbn. rewrite <- app_assoc. auto.
Qed.

Lemma price_history_absent X w :
  configured w = true -> Pg.faults (pg w) = [] ->
  Pg.committed (pg w) !! price_history_table_name X = None ->
  exists w1,
    call (price_history X) w = (Raise (does_not_exist (price_history_table_name X)), w1)
    /\ Pg.committed (pg w1) = Pg.committed (pg w)
    /\ Pg.sent (pg w1) = Pg.sent (pg w) ++ [Pg.SelectExists (price_history_table_name X)].
Proof.
  intros Hc Hf Hn. setup w Hc Hf.
  py_unfold. cbn. rewrite Hitems. cbn. rewrite Hn. cbn.
  eexists. split; [reflexivity|]. cbn. auto.
Qed.

Lemma delete_table_present X w rows :
  configured w = true -> Pg.faults (pg w) = [] ->
  Pg.committed (pg w) !! delete_table_table_name X = Some rows ->
  exists w1,
    call (delete_table X) w = (Ok [(lit "Table deleted successfully", true)], w1)
    /\ Pg.committed (pg w1) = delete (delete_table_table_name X) (Pg.committed (pg w))
    /\ Pg.faults (pg w1) = [] /\ configured w1 = true
    /\ Pg.sent (pg w1)
       = Pg.sent (pg w) ++ [Pg.SelectExists (delete_table_table_name X);
                            Pg.DropTableIfExists (delete_table_table_name X)].
Proof.
  intros Hc Hf Hn. setup w Hc Hf.
  py_unfold. cbn. rewrite Hitems. cbn. rewrite Hn. cbn.
  eexists. split; [reflexivity|]. unfold configured. cbn. rewrite Hitems, <- app_assoc. auto.
Qed.

Lemma delete_table_absent X w :
  configured w = true -> Pg.faults (pg w) = [] ->
  Pg.committed (pg w) !! delete_table_table_name X = None ->
  exists w1,
    call (delete_table X) w = (Raise (does_not_exist (delete_table_table_name X)), w1)
    /\ Pg.committed (pg w1) = Pg.committed (pg w)
    /\ Pg.sent (pg w1) = Pg.sent (pg w) ++ [Pg.SelectExists (delete_table_table_name X)].
Proof.
  intros Hc Hf Hn. setup w Hc Hf.
  py_unfold. cbn. rewrite Hitems. cbn. rewrite Hn. cbn.
  eexists. split; [reflexivity|]. cbn. auto.
Qed.

(* ===================================================================== *)
(** ** Properties of the service *)
(* ===================================================================== *)

(** The three handlers compute the table name by the same expression. *)
Lemma table_names_agree (X : str) :
  price_history_table_name X = price_table_name X
  /\ delete_table_table_name X = price_table_name X.
Proof. split; reflexivity. Qed.




(** C2, as stated, fails on a path parameter with a letter whose uppercase
    form does not lowercase back to it: for the sharp s (U+00DF),
    [upper] gives [SS] and the table is [ss_usdt], not the sharp s
    followed by [_usdt]. *)
Lemma table_name_sharp_s :
  path_param [223%N] = true
  /\ price_table_name [223%N] = lit "ss_usdt"
  /\ price_history_table_name [223%N] = lit "ss_usdt"
  /\ delete_table_table_name [223%N] = lit "ss_usdt"
  /\ price_table_name [223%N] <> lower [223%N] ++ lit "_usdt".
Proof. repeat split; try reflexivity. vm_compute. discriminate. Qed.

(** C2, amended.  For every ASCII path parameter [X], each of the three
    handlers derives the table name [lower X] followed by [_usdt]; it is
    the symbol [upper X ++ "/USDT"] with the slash replaced by an
    underscore, lowercased. *)
Theorem table_name_ascii (X : str) :
  path_param X = true -> is_ascii X = true ->
  price_table_name X = lower X ++ lit "_usdt"
  /\ price_history_table_name X = lower X ++ lit "_usdt"
  /\ delete_table_table_name X = lower X ++ lit "_usdt"
  /\ price_table_name X
     = lower (replace (chr "/") (chr "_") (upper X ++ lit "/USDT")).
Proof.
  intros Hp Ha. pose proof (table_name_ascii_eq X Ha Hp) as E.
  repeat split; exact E || reflexivity.
Qed.

Lemma table_name_ascii_witness :
  price_table_name btc = lit "btc_usdt"
  /\ price_history_table_name btc = lit "btc_usdt"
  /\ delete_table_table_name btc = lit "btc_usdt".
Proof.
  destruct (table_name_ascii btc) as (E1 & E2 & E3 & _);
    [reflexivity | reflexivity |].
  repeat split; assumption.
Defined.






(** C5.  On a store that answers and has no table for [X], both
    [price_history] and [delete_table] raise the exception whose message
    says that the table does not exist (an [Exception], not the
    [UnboundLocalError] of a [return] that finds [history_prices]
    unassigned); the only statement either of them sends is the existence
    query, so no [SELECT] of rows and no [DROP], and the tables are as
    before. *)
Theorem missing_table_is_reported (X : str) (w : world) :
  store_answers w ->
  Pg.committed (pg w) !! price_history_table_name X = None ->
  exists w1 w2,
    call (price_history X) w = (Raise (does_not_exist (price_history_table_name X)), w1)
    /\ call (delete_table X) w = (Raise (does_not_exist (delete_table_table_name X)), w2)
    /\ Pg.sent (pg w1) = Pg.sent (pg w) ++ [Pg.SelectExists (price_history_table_name X)]
    /\ Pg.sent (pg w2) = Pg.sent (pg w) ++ [Pg.SelectExists (delete_table_table_name X)]
    /\ Pg.committed (pg w1) = Pg.committed (pg w)
    /\ Pg.committed (pg w2) = Pg.committed (pg w).
Proof.
  intros [Hc Hf] Hn.
  destruct (price_history_absent X w Hc Hf Hn) as (w1 & E1 & Hcom1 & Hsent1).
  destruct (delete_table_absent X w Hc Hf Hn) as (w2 & E2 & Hcom2 & Hsent2).
  exists w1, w2. repeat split; assumption.
Qed.

Lemma missing_table_is_reported_witness :
  exists w1 w2,
    call (price_history btc) world_btc
    = (Raise (Builtin Exception (lit "Table btc_usdt does not exist.")), w1)
    /\ call (delete_table btc) world_btc
       = (Raise (Builtin Exception (lit "Table btc_usdt does not exist.")), w2).
Proof.
  destruct (missing_table_is_reported btc world_btc) as (w1 & w2 & E1 & E2 & _);
    [split; reflexivity | reflexivity |].
  exists w1, w2. split; [exact E1 | exact E2].
Defined.




(** C7.  On a store that answers, when the table of [X] holds a row [a]
    and, later in select order, a row [b] whose dates format to the same
    text [k], and no row after [b] does, the mapping [price_history]
    returns has exactly one entry under [k], and its value is that of
    [b]. *)
Theorem history_keeps_the_later_row (X : str) (w : world)
    (l1 l2 l3 : list Pg.row) (a b : Pg.row) (k : str) :
  store_answers w ->
  Pg.committed (pg w) !! price_history_table_name X = Some (l1 ++ a :: l2 ++ b :: l3) ->
  strftime (Pg.date a) = k -> strftime (Pg.date b) = k ->
  Forall (fun r => strftime (Pg.date r) <> k) l3 ->
  exists m w',
    call (price_history X) w = (Ok m, w')
    /\ PyDict.get k m = Some (Pg.value b)
    /\ PyDict.count k m = 1%nat.
Proof.
  intros [Hc Hf] Hrows Ha Hb H3.
  destruct (price_history_present X w _ Hc Hf Hrows) as (w' & E & _).
  eexists _, w'. split; [exact E|].
  assert (G : PyDict.get k (history_of (l1 ++ a :: l2 ++ b :: l3)) = Some (Pg.value b)).
  { replace (l1 ++ a :: l2 ++ b :: l3) with ((l1 ++ a :: l2) ++ b :: l3)
      by (rewrite <- app_assoc; reflexivity).
    apply history_of_last; assumption. }
  split; [exact G|].
  pose proof (get_count _ _ _ G).
  pose proof (history_of_count (l1 ++ a :: l2 ++ b :: l3) [] k (Nat.le_0_l 1)).
  unfold history_of in *. lia.
Qed.

Lemma history_keeps_the_later_row_witness :
  exists m w',
    call (price_history btc) world_two_rows = (Ok m, w')
    /\ PyDict.get (lit "2023-11-14 22:13:20") m = Some (Qmake 36251 1)
    /\ PyDict.count (lit "2023-11-14 22:13:20") m = 1%nat.
Proof.
  apply (history_keeps_the_later_row btc world_two_rows [] [] []
           (sample_row 0 (Qmake 36250 1)) (sample_row 500000 (Qmake 36251 1)));
    [split; reflexivity | vm_compute; reflexivity | reflexivity | reflexivity | constructor].
Defined.

(** C8.  On a store that answers and holds the table of [X],
    [delete_table] drops the table and returns the confirmation, and a
    [price_history] that follows raises the exception of the missing
    table. *)
Theorem delete_then_history (X : str) (w : world) (rows : list Pg.row) :
  store_answers w ->
  Pg.committed (pg w) !! delete_table_table_name X = Some rows ->
  exists w1 w2,
    call (delete_table X) w = (Ok [(lit "Table deleted successfully", true)], w1)
    /\ Pg.committed (pg w1) = delete (delete_table_table_name X) (Pg.committed (pg w))
    /\ call (price_history X) w1
       = (Raise (does_not_exist (price_history_table_name X)), w2).
Proof.
  intros [Hc Hf] Hrows.
  destruct (delete_table_present X w rows Hc Hf Hrows) as (w1 & E1 & Hcom & Hf1 & Hc1 & _).
  assert (Hn : Pg.committed (pg w1) !! price_history_table_name X = None)
    by (rewrite Hcom; apply lookup_delete_eq).
  destruct (price_history_absent X w1 Hc1 Hf1 Hn) as (w2 & E2 & _).
  exists w1, w2. repeat split; assumption.
Qed.

Lemma delete_then_history_witness :
  exists w1 w2,
    call (delete_table btc) world_two_rows
    = (Ok [(lit "Table deleted successfully", true)], w1)
    /\ Pg.committed (pg w1) = delete (delete_table_table_name btc) (Pg.committed (pg world_two_rows))
    /\ call (price_history btc) w1
       = (Raise (does_not_exist (price_history_table_name btc)), w2).
Proof.
  apply (delete_then_history btc world_two_rows
           [sample_row 0 (Qmake 36250 1); sample_row 500000 (Qmake 36251 1)]);
    [split; reflexivity | vm_compute; reflexivity].
Defined.

(** C9.  When [price] raises the HTTP 400 of the missing bid, the world
    is the one the request started in: no connection was opened (the
    fault plan is untouched), no statement was sent, the tables and the
    output are as before. *)
Theorem no_bid_leaves_the_store_alone (X : str) (w w' : world) (symbol : str) :
  call (price X) w
  = (Raise (HTTPException 400 (lit "Could not find bid price for " ++ symbol)), w') ->
  w' = w
  /\ Pg.committed (pg w') = Pg.committed (pg w)
  /\ Pg.sent (pg w') = Pg.sent (pg w)
  /\ Pg.faults (pg w') = Pg.faults (pg w)
  /\ stdout w' = stdout w.
Proof.
  intros E.
  assert (W : w' = w); [|subst w'; repeat split].
  destruct (kucoin w (price_currency_symbol X)) as [msg|tk] eqn:Hk;
    [rewrite (price_api_error X w msg Hk) in E; congruence|].
  destruct (timestamp tk) as [t|] eqn:Ht;
    [|rewrite (price_no_timestamp X w tk Hk Ht) in E; congruence].
  destruct (fromtimestamp (utcoffset w) (Qmake t 1000)) as [dt|] eqn:Hdt;
    [|rewrite (price_out_of_range X w tk t Hk Ht Hdt) in E; congruence].
  destruct (bid tk) as [p|] eqn:Hb;
    [|rewrite (price_no_bid X w tk t dt Hk Ht Hdt Hb) in E; congruence].
  destruct (price_bid X w tk t dt p Hk Ht Hdt Hb) as (o & s1 & E' & _).
  rewrite E' in E. discriminate.
Qed.

Lemma no_bid_leaves_the_store_alone_witness :
  snd (call (price btc) world_no_bid) = world_no_bid.
Proof.
  apply (no_bid_leaves_the_store_alone btc world_no_bid _ (lit "BTC/USDT")).
  vm_compute. reflexivity.
Defined.

(** C10.  When the ticker has no timestamp, [price] fails with the
    [TypeError] of the division, whether or not there is a bid: it raises
    no [HTTPException] and returns no reply, and the world is untouched.
    The division comes before the test of the bid. *)
Theorem price_needs_the_timestamp (X : str) (w : world) (tk : ticker) :
  kucoin w (price_currency_symbol X) = inr tk ->
  timestamp tk = None ->
  call (price X) w
  = (Raise (Builtin TypeError
              (lit "unsupported operand type(s) for /: 'NoneType' and 'int'")), w)
  /\ (forall status detail w', call (price X) w <> (Raise (HTTPException status detail), w'))
  /\ (forall r w', call (price X) w <> (Ok r, w')).
Proof.
  intros Hk Ht. rewrite (price_no_timestamp X w tk Hk Ht).
  repeat split; intros; discriminate.
Qed.

Lemma price_needs_the_timestamp_witness :
  call (price btc) world_no_timestamp
  = (Raise (Builtin TypeError
              (lit "unsupported operand type(s) for /: 'NoneType' and 'int'")),
     world_no_timestamp).
Proof.
  apply (price_needs_the_timestamp btc world_no_timestamp
           {| bid := None; timestamp := None |}); reflexivity.
Defined.

(* ===================================================================== *)
(** ** Every outcome of the handlers *)
(* ===================================================================== *)

(** Every outcome of [price_history], for any world. *)
Lemma price_history_outcome (X : str) (w : world) :
  exists r w',
    call (price_history X) w = (r, w')
    /\ same_env w w'
    /\ Pg.committed (pg w') = Pg.committed (pg w)
    /\ (Pg.open (pg w) = None -> Pg.open (pg w') = None)
    /\ (Pg.sent (pg w') = Pg.sent (pg w)
        \/ Pg.sent (pg w') = Pg.sent (pg w) ++ [Pg.SelectExists (price_history_table_name X)]
        \/ Pg.sent (pg w')
           = Pg.sent (pg w) ++ [Pg.SelectExists (price_history_table_name X);
                                Pg.SelectDateValue (price_history_table_name X)])
    /\ match r with
       | Ok m => exists rows,
           Pg.committed (pg w) !! price_history_table_name X = Some rows
           /\ m = history_of rows
       | Raise (Psycopg2Error _) => True
       | Raise (Builtin Exception _) => True
       | Raise _ => False
       end.
Proof.
  destruct w as [ini ku off [com op fl snt] out].
  py_unfold. cbn.
  destruct (items _ _) as [params|]; cbn.
  2: { do 2 eexists. split; [reflexivity|]. unfold same_env. cbn. auto 10. }
  destruct (com !! price_history_table_name X) as [rows|] eqn:Hn;
    crunch Hn history_comprehension_rows;
    (do 2 eexists; split; [reflexivity|]; unfold same_env; cbn; rewrite <- ?app_assoc;
     repeat split; eauto 6).
Qed.

(** Every outcome of [delete_table], for any world. *)
Lemma delete_table_outcome (X : str) (w : world) :
  exists r w',
    call (delete_table X) w = (r, w')
    /\ same_env w w'
    /\ (Pg.open (pg w) = None -> Pg.open (pg w') = None)
    /\ (Pg.sent (pg w') = Pg.sent (pg w)
        \/ Pg.sent (pg w') = Pg.sent (pg w) ++ [Pg.SelectExists (delete_table_table_name X)]
        \/ Pg.sent (pg w')
           = Pg.sent (pg w) ++ [Pg.SelectExists (delete_table_table_name X);
                                Pg.DropTableIfExists (delete_table_table_name X)])
    /\ match r with
       | Ok v =>
           v = [(lit "Table deleted successfully", true)]
           /\ (exists rows, Pg.committed (pg w) !! delete_table_table_name X = Some rows)
           /\ Pg.committed (pg w') = delete (delete_table_table_name X) (Pg.committed (pg w))
       | Raise e =>
           Pg.committed (pg w') = Pg.committed (pg w)
           /\ match e with
              | Psycopg2Error _ | Builtin Exception _ => True
              | _ => False
              end
       end.
Proof.
  destruct w as [ini ku off [com op fl snt] out].
  py_unfold. cbn.
  destruct (items _ _) as [params|]; cbn.
  2: { do 2 eexists. split; [reflexivity|]. unfold same_env. cbn. auto 10. }
  destruct (com !! delete_table_table_name X) as [rows|] eqn:Hn;
    crunch Hn history_comprehension_rows;
    (do 2 eexists; split; [reflexivity|]; unfold same_env; cbn; rewrite <- ?app_assoc;
     repeat split; eauto 6).
Qed.

(** Every outcome of a [price] whose ticker has a bid and a timestamp, for
    any world. *)
Lemma price_outcome (X : str) (w : world) (tk : ticker) (t : Z) (dt : datetime) (p : float) :
  kucoin w (price_currency_symbol X) = inr tk -> timestamp tk = Some t ->
  fromtimestamp (utcoffset w) (Qmake t 1000) = Some dt ->
  bid tk = Some p ->
  let n := price_table_name X in
  let row := {| Pg.date := whole_second dt; Pg.value := p |} in
  exists w',
    call (price X) w
    = (Ok {| currency := X; last_bid_price := p; time := strftime dt |}, w')
    /\ same_env w w'
    /\ (Pg.open (pg w) = None -> Pg.open (pg w') = None)
    /\ ((last (stdout w') = Some (lit "Record inserted successfully.")
         /\ Pg.committed (pg w')
            = <[n := default [] (Pg.committed (pg w) !! n) ++ [row]]> (Pg.committed (pg w)))
        \/ (exists msg,
              last (stdout w') = Some (lit "Error while inserting into PostgreSQL: " ++ msg)
              /\ Pg.committed (pg w') = Pg.committed (pg w)))
    /\ exists extra,
         Pg.sent (pg w') = Pg.sent (pg w) ++ extra
         /\ (In (Pg.CreateTable n) extra -> Pg.committed (pg w) !! n = None)
         /\ Forall (fun q => q = Pg.SelectExists n \/ q = Pg.CreateTable n
                             \/ q = Pg.InsertInto n (strftime dt) p) extra.
Proof.
  intros Hk Ht Hf Hb n row. subst n row.
  pose proof (timestamp_in_strftime dt (fromtimestamp_checked _ _ _ Hf)) as Hd.
  destruct w as [ini ku off [com op fl snt] out]. simpl in Hk, Hf.
  unfold call, price. unfold price_write_back. py_unfold. cbn.
  rewrite Hk, Ht. cbn. rewrite Hf, Hb. cbn.
  destruct (items _ _) as [params|]; cbn.
  2: { eexists. split; [reflexivity|]. unfold same_env. cbn. rewrite last_snoc.
       split; [auto|]. split; [auto|].
       split; [right; eauto|]. exists []. rewrite app_nil_r.
       repeat split; [intros []|constructor]. }
  destruct (com !! price_table_name X) as [rows|] eqn:Hn;
    repeat first [ progress plan_cases | rewrite Hn; cbn | rewrite Hd; cbn
                 | rewrite lookup_insert_eq; cbn ];
    (eexists; split; [reflexivity|]; unfold same_env; cbn;
     rewrite ?last_snoc, ?insert_insert_eq, <- ?app_assoc; cbn [app];
     split; [auto|]; split; [auto|];
     split; [first [left; split; reflexivity | right; eexists; split; reflexivity]|];
     first [ exists []; rewrite app_nil_r; split; [reflexivity|]
           | eexists; split; [reflexivity|] ];
     (split; [cbn; intros H; repeat (destruct H as [H|H]; try discriminate H);
                    first [contradiction | reflexivity | assumption]
             | repeat (apply List.Forall_cons; [auto 4|]); apply List.Forall_nil ])).
Qed.

(** When [price] raises, the world is the one it started in. *)
Lemma price_raise_world (X : str) (w w' : world) (e : exn) :
  call (price X) w = (Raise e, w') -> w' = w.
Proof.
  intros E.
  destruct (kucoin w (price_currency_symbol X)) as [msg|tk] eqn:Hk;
    [rewrite (price_api_error X w msg Hk) in E; congruence|].
  destruct (timestamp tk) as [t|] eqn:Ht;
    [|rewrite (price_no_timestamp X w tk Hk Ht) in E; congruence].
  destruct (fromtimestamp (utcoffset w) (Qmake t 1000)) as [dt|] eqn:Hdt;
    [|rewrite (price_out_of_range X w tk t Hk Ht Hdt) in E; congruence].
  destruct (bid tk) as [p|] eqn:Hb;
    [|rewrite (price_no_bid X w tk t dt Hk Ht Hdt Hb) in E; congruence].
  destruct (price_bid X w tk t dt p Hk Ht Hdt Hb) as (o & s1 & E' & _).
  rewrite E' in E. discriminate.
Qed.

(** When [price] returns, the ticker had a bid and a timestamp. *)
Lemma price_ok_ticker (X : str) (w w' : world) (r : price_reply) :
  call (price X) w = (Ok r, w') ->
  exists tk t dt p,
    kucoin w (price_currency_symbol X) = inr tk /\ timestamp tk = Some t
    /\ fromtimestamp (utcoffset w) (Qmake t 1000) = Some dt /\ bid tk = Some p.
Proof.
  intros E.
  destruct (kucoin w (price_currency_symbol X)) as [msg|tk] eqn:Hk;
    [rewrite (price_api_error X w msg Hk) in E; discriminate|].
  destruct (timestamp tk) as [t|] eqn:Ht;
    [|rewrite (price_no_timestamp X w tk Hk Ht) in E; discriminate].
  destruct (fromtimestamp (utcoffset w) (Qmake t 1000)) as [dt|] eqn:Hdt;
    [|rewrite (price_out_of_range X w tk t Hk Ht Hdt) in E; discriminate].
  destruct (bid tk) as [p|] eqn:Hb;
    [|rewrite (price_no_bid X w tk t dt Hk Ht Hdt Hb) in E; discriminate].
  eauto 10.
Qed.

Section DictFresh.
Context {V : Type}.

(** A new key is appended. *)
Lemma set_fresh (k : str) (v : V) (d : PyDict.dict V) :
  ~ In k (map fst d) -> PyDict.set k v d = d ++ [(k, v)].
Proof.
  induction d as [|[k' v'] d IH]; intros H; [reflexivity|].
  cbn [PyDict.set]. rewrite bool_decide_eq_false_2 by (intros ->; apply H; left; reflexivity).
  cbn [app]. f_equal. apply IH. intros Hin. apply H. right. exact Hin.
Qed.

(** Filling a dictionary from pairs with distinct keys keeps the pairs. *)
Lemma fold_set_distinct (l : list (str * V)) (d : PyDict.dict V) :
  List.NoDup (map fst (d ++ l)) ->
  fold_left (fun db param => PyDict.set (fst param) (snd param) db) l d = d ++ l.
Proof.
  revert d. induction l as [|[k v] l IH]; intros d H; cbn [fold_left].
  - now rewrite app_nil_r.
  - assert (Hk : ~ In k (map fst d)).
    { rewrite map_app in H. apply NoDup_remove_2 in H.
      intros Hin. apply H. apply in_or_app. left. exact Hin. }
    cbn [fst snd]. rewrite (set_fresh k v d Hk), IH.
    + now rewrite <- app_assoc.
    + now rewrite <- app_assoc.
Qed.
End DictFresh.

(** Rows with distinct formatted dates give one entry each, in order. *)
Lemma history_of_distinct (rows : list Pg.row) :
  List.NoDup (map (fun r => strftime (Pg.date r)) rows) ->
  history_of rows = map row_entry rows.
Proof.
  intros H. unfold history_of.
  assert (G : forall l d, List.NoDup (map fst (d ++ map row_entry l)) ->
                          fold_left add_row l d = d ++ map row_entry l).
  { induction l as [|r l IH]; intros d Hd; cbn [fold_left map].
    - now rewrite app_nil_r.
    - assert (Hk : ~ In (strftime (Pg.date r)) (map fst d)).
      { cbn [map] in Hd. rewrite map_app in Hd. apply NoDup_remove_2 in Hd.
        intros Hin. apply Hd. apply in_or_app. left. exact Hin. }
      unfold add_row at 2. rewrite (set_fresh _ _ d Hk), IH.
      + now rewrite <- app_assoc.
      + cbn [map] in Hd. now rewrite <- app_assoc. }
  rewrite G; [reflexivity|]. cbn [app]. rewrite map_map. exact H.
Qed.

(* ===================================================================== *)
(** ** Further properties of the service *)
(* ===================================================================== *)





(** X3.  When the store refuses the connection, [price_history] and
    [delete_table] raise the error of psycopg2 as it is (where [price]
    swallows it); no statement is sent and the tables are unchanged. *)
Theorem refused_connection_is_surfaced (X : str) (w : world) (msg : str)
    (rest : list (option str)) :
  configured w = true ->
  Pg.faults (pg w) = Some msg :: rest ->
  exists w1 w2,
    call (price_history X) w = (Raise (Psycopg2Error msg), w1)
    /\ call (delete_table X) w = (Raise (Psycopg2Error msg), w2)
    /\ Pg.sent (pg w1) = Pg.sent (pg w) /\ Pg.sent (pg w2) = Pg.sent (pg w)
    /\ Pg.committed (pg w1) = Pg.committed (pg w)
    /\ Pg.committed (pg w2) = Pg.committed (pg w).
Proof.
  intros Hc Hf. unfold configured in Hc.
  destruct w as [ini ku off [com op fl snt] out]. cbn in Hc, Hf. subst fl.
  destruct (items _ _) as [params|] eqn:Hitems; [|discriminate].
  do 2 eexists.
  split; [py_unfold; cbn; rewrite Hitems; reflexivity|].
  split; [py_unfold; cbn; rewrite Hitems; reflexivity|].
  cbn. auto.
Qed.

Lemma refused_connection_is_surfaced_witness :
  exists w1 w2,
    call (price_history btc) world_down = (Raise (Psycopg2Error (lit "connection refused")), w1)
    /\ call (delete_table btc) world_down = (Raise (Psycopg2Error (lit "connection refused")), w2).
Proof.
  destruct (refused_connection_is_surfaced btc world_down (lit "connection refused") [])
    as (w1 & w2 & E1 & E2 & _); [reflexivity | reflexivity |].
  exists w1, w2. split; assumption.
Defined.



(** X5.  Whatever exception [price] raises (the HTTP 400 of the exchange
    or of the missing bid, the [TypeError] of a missing timestamp, the
    [ValueError] of a timestamp out of range), the world is the one the
    request started in: [price] fails only before it touches the store. *)
Theorem failed_price_changes_nothing (X : str) (w w' : world) (e : exn) :
  call (price X) w = (Raise e, w') -> w' = w.
Proof. apply price_raise_world. Qed.

Lemma failed_price_changes_nothing_witness :
  snd (call (price btc) world_no_timestamp) = world_no_timestamp.
Proof.
  apply (failed_price_changes_nothing btc world_no_timestamp _
           (Builtin TypeError (lit "unsupported operand type(s) for /: 'NoneType' and 'int'"))).
  vm_compute. reflexivity.
Defined.

(** X6.  Each of the three handlers closes the connection it opened, on
    every path: with no connection open before the request, none is open
    after it, whatever the fault plan and the outcome. *)
Theorem connection_is_always_closed (X : str) (w : world) :
  Pg.open (pg w) = None ->
  Pg.open (pg (snd (call (price X) w))) = None
  /\ Pg.open (pg (snd (call (price_history X) w))) = None
  /\ Pg.open (pg (snd (call (delete_table X) w))) = None.
Proof.
  intros Ho. split; [|split].
  - destruct (call (price X) w) as [[reply|e] w'] eqn:E; cbn [snd].
    + destruct (price_ok_ticker X w w' reply E) as (tk & t & dt & p & Hk & Ht & Hdt & Hb).
      destruct (price_outcome X w tk t dt p Hk Ht Hdt Hb) as (w1 & E1 & _ & Hop & _).
      rewrite E1 in E. injection E as _ <-. exact (Hop Ho).
    + now rewrite (price_raise_world X w w' e E).
  - destruct (price_history_outcome X w) as (r & w' & E & _ & _ & Hop & _).
    rewrite E. exact (Hop Ho).
  - destruct (delete_table_outcome X w) as (r & w' & E & _ & Hop & _).
    rewrite E. exact (Hop Ho).
Qed.

Lemma connection_is_always_closed_witness :
  Pg.open (pg (snd (call (price btc) world_insert_fails))) = None
  /\ Pg.open (pg (snd (call (price_history btc) world_insert_fails))) = None
  /\ Pg.open (pg (snd (call (delete_table btc) world_insert_fails))) = None.
Proof. apply (connection_is_always_closed btc world_insert_fails). reflexivity. Defined.







(** X10.  An error of the exchange makes [price] raise HTTP 400 with the
    text of the error after [An error occurred with KuCoin API: ]; the
    world is untouched. *)
Theorem exchange_error_is_400 (X : str) (w : world) (msg : str) :
  kucoin w (price_currency_symbol X) = inl msg ->
  call (price X) w
  = (Raise (HTTPException 400 (lit "An error occurred with KuCoin API: " ++ msg)), w).
Proof. apply price_api_error. Qed.

Lemma exchange_error_is_400_witness :
  call (price btc) world_unknown_pair
  = (Raise (HTTPException 400
              (lit "An error occurred with KuCoin API: kucoin does not have market symbol BTC/USDT")),
     world_unknown_pair).
Proof.
  apply (exchange_error_is_400 btc world_unknown_pair
           (lit "kucoin does not have market symbol BTC/USDT")).
  vm_compute. reflexivity.
Defined.



(** X12.  On a store that answers, when no two rows of the table format
    to the same text, [price_history] returns one entry per row, in select
    order: nothing is lost. *)
Theorem history_without_collisions (X : str) (w : world) (rows : list Pg.row) :
  store_answers w ->
  Pg.committed (pg w) !! price_history_table_name X = Some rows ->
  List.NoDup (map (fun r => strftime (Pg.date r)) rows) ->
  exists w', call (price_history X) w = (Ok (map row_entry rows), w').
Proof.
  intros [Hc Hf] Hrows Hnd.
  destruct (price_history_present X w rows Hc Hf Hrows) as (w' & E & _).
  exists w'. now rewrite <- (history_of_distinct rows Hnd).
Qed.

Lemma history_without_collisions_witness :
  exists w',
    call (price_history btc) world_two_seconds
    = (Ok [(lit "2023-11-14 22:13:20", Qmake 36250 1);
           (lit "2023-11-14 22:13:21", Qmake 36251 1)], w').
Proof.
  apply (history_without_collisions btc world_two_seconds
           [sample_row 0 (Qmake 36250 1);
            {| Pg.date := {| year := 2023; month := 11; day := 14;
                             hour := 22; minute := 13; second := 21; microsecond := 0 |};
               Pg.value := Qmake 36251 1 |}]).
  - split; reflexivity.
  - vm_compute. reflexivity.
  - repeat (apply List.NoDup_cons; [vm_compute; intuition discriminate|]). apply List.NoDup_nil.
Defined.

(** X13.  Two tickers whose timestamps fall in the same whole second (on
    servers with the same offset from UTC at that second) get the same
    formatted time from [price]: the milliseconds are dropped. *)
Theorem same_second_same_time (X : str) (w1 w2 w1' w2' : world) (tk1 tk2 : ticker)
    (t1 t2 : Z) (r1 r2 : price_reply) :
  kucoin w1 (price_currency_symbol X) = inr tk1 -> timestamp tk1 = Some t1 ->
  kucoin w2 (price_currency_symbol X) = inr tk2 -> timestamp tk2 = Some t2 ->
  t1 / 1000 = t2 / 1000 ->
  utcoffset w1 (t1 / 1000) = utcoffset w2 (t2 / 1000) ->
  call (price X) w1 = (Ok r1, w1') ->
  call (price X) w2 = (Ok r2, w2') ->
  time r1 = time r2.
Proof.
  intros Hk1 Ht1 Hk2 Ht2 Hs Ho E1 E2.
  destruct (price_ok_ticker X w1 w1' r1 E1) as (tk & t & d1 & p1 & Hk & Ht & Hd1 & Hb1).
  rewrite Hk1 in Hk. injection Hk as <-. rewrite Ht1 in Ht. injection Ht as <-.
  destruct (price_ok_ticker X w2 w2' r2 E2) as (tk & t & d2 & p2 & Hk & Ht & Hd2 & Hb2).
  rewrite Hk2 in Hk. injection Hk as <-. rewrite Ht2 in Ht. injection Ht as <-.
  destruct (price_bid X w1 tk1 t1 d1 p1 Hk1 Ht1 Hd1 Hb1) as (? & ? & F1 & _).
  destruct (price_bid X w2 tk2 t2 d2 p2 Hk2 Ht2 Hd2 Hb2) as (? & ? & F2 & _).
  rewrite F1 in E1. rewrite F2 in E2. injection E1 as <- _. injection E2 as <- _.
  cbn [time]. rewrite fromtimestamp_ms in Hd1, Hd2. cbv zeta in Hd1, Hd2.
  rewrite <- Ho, <- Hs in Hd2.
  destruct (check_fields (broken_down _ (t1 mod 1000 * 1000))); [|discriminate].
  destruct (check_fields (broken_down _ (t2 mod 1000 * 1000))); [|discriminate].
  injection Hd1 as <-. injection Hd2 as <-.
  rewrite <- (strftime_whole_second (broken_down _ (t1 mod 1000 * 1000))).
  rewrite <- (strftime_whole_second (broken_down _ (t2 mod 1000 * 1000))).
  now rewrite !broken_down_whole_second.
Qed.

Lemma same_second_same_time_witness :
  lit "2023-11-14 22:13:20" = lit "2023-11-14 22:13:20".
Proof.
  apply (same_second_same_time btc world_btc world_btc_later
           (snd (call (price btc) world_btc)) (snd (call (price btc) world_btc_later))
           sample_ticker {| bid := Some (Qmake 72503 2); timestamp := Some 1700000000999 |}
           1700000000123 1700000000999
           {| currency := btc; last_bid_price := Qmake 72501 2;
              time := lit "2023-11-14 22:13:20" |}
           {| currency := btc; last_bid_price := Qmake 72503 2;
              time := lit "2023-11-14 22:13:20" |});
    vm_compute; reflexivity.
Defined.



(** Both views of one call of [price] on a store that answers. *)
Lemma price_answers_env X w tk t dt p :
  configured w = true -> Pg.faults (pg w) = [] ->
  kucoin w (price_currency_symbol X) = inr tk -> timestamp tk = Some t ->
  fromtimestamp (utcoffset w) (Qmake t 1000) = Some dt ->
  bid tk = Some p ->
  exists w1,
    call (price X) w
    = (Ok {| currency := X; last_bid_price := p; time := strftime dt |}, w1)
    /\ Pg.committed (pg w1)
       = <[price_table_name X :=
             default [] (Pg.committed (pg w) !! price_table_name X)
             ++ [{| Pg.date := whole_second dt; Pg.value := p |}]]>
           (Pg.committed (pg w))
    /\ Pg.faults (pg w1) = [] /\ configured w1 = true /\ same_env w w1.
Proof.
  intros Hc Hf Hk Ht Hdt Hb.
  destruct (price_answers X w tk t dt p Hc Hf Hk Ht Hdt Hb) as (w1 & E & Hcom & Hf1 & Hc1).
  destruct (price_outcome X w tk t dt p Hk Ht Hdt Hb) as (w1' & E' & Henv & _).
  rewrite E in E'. injection E' as <-. eauto 10.
Qed.




